(** * MCP-InfraOps: routing, classification and telemetry

    A shallow embedding of the three decision engines of the [chatgpt]
    package:

    - [device_registry.py]  (class [DeviceRegistry]),
    - [intent_classifier.py] (class [IntentClassifier]),
    - [telemetry.py]        (class [CommandTelemetry]).

    Python [str] values are modelled as [string] (byte strings): [lower] and
    [upper] fold the ASCII letters and leave every other byte alone.  Python
    dictionaries whose iteration order is observable are association lists
    kept in insertion order; dictionaries and sets that are only looked up are
    [gmap]s and [gset]s. *)

From Stdlib Require Import Ascii QArith DecimalString Lqa.
From stdpp Require Import gmap strings list fin_maps.

(** ** Python string primitives *)

Module PyStr.

Definition is_upper (c : ascii) : bool :=
  let n := nat_of_ascii c in (65 <=? n) && (n <=? 90).

Definition is_lower (c : ascii) : bool :=
  let n := nat_of_ascii c in (97 <=? n) && (n <=? 122).

Definition ascii_lower (c : ascii) : ascii :=
  if is_upper c then ascii_of_nat (nat_of_ascii c + 32) else c.

Definition ascii_upper (c : ascii) : ascii :=
  if is_lower c then ascii_of_nat (nat_of_ascii c - 32) else c.

(** [s.lower()] *)
Fixpoint lower (s : string) : string :=
  match s with
  | EmptyString => EmptyString
  | String c s' => String (ascii_lower c) (lower s')
  end.

(** [s.upper()] *)
Fixpoint upper (s : string) : string :=
  match s with
  | EmptyString => EmptyString
  | String c s' => String (ascii_upper c) (upper s')
  end.

(** No upper-case letter occurs in [s]. *)
Fixpoint no_upper (s : string) : bool :=
  match s with
  | EmptyString => true
  | String c s' => negb (is_upper c) && no_upper s'
  end.

(** [x in s] on strings: [x] occurs as a contiguous substring of [s]. *)
Fixpoint str_in (x s : string) : bool :=
  if String.prefix x s then true
  else match s with
       | EmptyString => false
       | String _ s' => str_in x s'
       end.

(** [any(x in s for x in xs)] *)
Definition any_in (xs : list string) (s : string) : bool :=
  existsb (fun x => str_in x s) xs.

(** Truthiness of a string: [bool(s)]. *)
Definition truthy (s : string) : bool :=
  match s with EmptyString => false | _ => true end.

Lemma ascii_lower_not_upper c : is_upper (ascii_lower c) = false.
Proof. destruct c as [[] [] [] [] [] [] [] []]; reflexivity. Qed.

Lemma ascii_lower_idem c : ascii_lower (ascii_lower c) = ascii_lower c.
Proof. destruct c as [[] [] [] [] [] [] [] []]; reflexivity. Qed.

Lemma lower_idem s : lower (lower s) = lower s.
Proof.
  induction s as [|c s IH]; simpl; [reflexivity|].
  now rewrite ascii_lower_idem, IH.
Qed.

Lemma lower_no_upper s : no_upper (lower s) = true.
Proof.
  induction s as [|c s IH]; simpl; [reflexivity|].
  now rewrite ascii_lower_not_upper, IH.
Qed.

Lemma no_upper_lower_id s : no_upper s = true -> lower s = s.
Proof.
  induction s as [|c s IH]; simpl; [reflexivity|].
  intros [Hc Hs]%andb_prop. rewrite (IH Hs). f_equal.
  unfold ascii_lower. now destruct (is_upper c).
Qed.

Lemma prefix_app x r : String.prefix x (x +:+ r) = true.
Proof.
  induction x as [|c x IH]; simpl.
  - now destruct r.
  - destruct (ascii_dec c c); [exact IH | congruence].
Qed.

Lemma prefix_inv x s : String.prefix x s = true -> exists r, s = x +:+ r.
Proof.
  revert s. induction x as [|c x IH]; intros s H.
  - exists s. reflexivity.
  - destruct s as [|d s]; simpl in H; [discriminate|].
    destruct (ascii_dec c d) as [->|]; [|discriminate].
    destruct (IH _ H) as [r ->]. exists r. reflexivity.
Qed.

Lemma str_in_unfold x s :
  str_in x s =
  if String.prefix x s then true
  else match s with
       | EmptyString => false
       | String _ s' => str_in x s'
       end.
Proof. destruct s; reflexivity. Qed.

(** [str_in] is substring occurrence. *)
Lemma str_in_spec x s :
  str_in x s = true <-> exists a b, s = a +:+ x +:+ b.
Proof.
  split.
  - induction s as [|c s IH]; rewrite str_in_unfold;
      destruct (String.prefix x _) eqn:E.
    + intros _. apply prefix_inv in E as [r ->]. by exists "", r.
    + done.
    + intros _. apply prefix_inv in E as [r E]. exists "", r. exact E.
    + intros H. destruct (IH H) as (a & b & ->). by exists (String c a), b.
  - intros (a & b & ->). induction a as [|c a IH].
    + change (str_in x (x +:+ b) = true).
      by rewrite str_in_unfold, prefix_app.
    + change (str_in x (String c (a +:+ x +:+ b)) = true).
      rewrite str_in_unfold, IH. by destruct (String.prefix _ _).
Qed.

Lemma str_in_prefix x s : String.prefix x s = true -> str_in x s = true.
Proof. intros H. rewrite str_in_unfold. by rewrite H. Qed.

Lemma any_in_true xs s :
  any_in xs s = true <-> exists x, In x xs /\ str_in x s = true.
Proof. apply existsb_exists. Qed.

End PyStr.

(** ** Insertion-ordered dictionaries

    A Python [dict] iterates in insertion order, and assigning to a key that
    is already present keeps the key's position. *)

Module PyDict.
Section Dict.
Context {V : Type}.

Definition pydict := list (string * V).

(** [d.get(k)] *)
Fixpoint get (k : string) (d : pydict) : option V :=
  match d with
  | [] => None
  | (k', v) :: d' => if decide (k' = k) then Some v else get k d'
  end.

(** [d[k] = v] *)
Fixpoint set (k : string) (v : V) (d : pydict) : pydict :=
  match d with
  | [] => [(k, v)]
  | (k', v') :: d' =>
      if decide (k' = k) then (k', v) :: d' else (k', v') :: set k v d'
  end.

(** [list(d.keys())] *)
Definition keys (d : pydict) : list string := fst <$> d.

(** [list(d.values())] *)
Definition values (d : pydict) : list V := snd <$> d.

(** [k in d] *)
Definition mem (k : string) (d : pydict) : bool :=
  match get k d with Some _ => true | None => false end.

Lemma get_set_eq k v d : get k (set k v d) = Some v.
Proof.
  induction d as [|[k' v'] d IH]; simpl.
  - by rewrite decide_True.
  - destruct (decide (k' = k)) as [->|Hne]; simpl.
    + by rewrite decide_True.
    + by rewrite decide_False.
Qed.

Lemma get_set_ne k k' v d : k ≠ k' -> get k' (set k v d) = get k' d.
Proof.
  intros Hne. induction d as [|[k0 v0] d IH]; simpl.
  - by rewrite decide_False.
  - destruct (decide (k0 = k)) as [->|Hk0]; simpl.
    + by rewrite !decide_False.
    + destruct (decide (k0 = k')); [done | exact IH].
Qed.

Lemma get_None_keys k d : get k d = None <-> k ∉ keys d.
Proof.
  induction d as [|[k' v'] d IH]; simpl.
  - split; [intros _; apply not_elem_of_nil | done].
  - rewrite not_elem_of_cons. destruct (decide (k' = k)) as [->|Hne].
    + split; [done | intros [? _]; done].
    + rewrite IH. split; [intros ?; split; [congruence | done] | by intros [_ ?]].
Qed.

Lemma get_Some_elem k v d : get k d = Some v -> (k, v) ∈ d.
Proof.
  induction d as [|[k' v'] d IH]; simpl; [done|].
  destruct (decide (k' = k)) as [->|Hne].
  - intros [= ->]. apply list_elem_of_here.
  - intros H. apply list_elem_of_further, IH, H.
Qed.

Lemma elem_get_Some k v d : NoDup (keys d) -> (k, v) ∈ d -> get k d = Some v.
Proof.
  induction d as [|[k' v'] d IH]; simpl; intros Hnd Hin.
  - by apply elem_of_nil in Hin.
  - apply NoDup_cons in Hnd as [Hk' Hnd].
    apply elem_of_cons in Hin as [[= -> ->]|Hin].
    + by rewrite decide_True.
    + destruct (decide (k' = k)) as [->|Hne]; [|by apply IH].
      exfalso. apply Hk'. apply list_elem_of_fmap. by exists (k, v).
Qed.

Lemma keys_set k v d :
  keys (set k v d) = if mem k d then keys d else keys d ++ [k].
Proof.
  unfold mem. induction d as [|[k' v'] d IH]; simpl; [done|].
  destruct (decide (k' = k)) as [->|Hne]; simpl; [done|].
  rewrite IH. by destruct (get k d).
Qed.

Lemma NoDup_keys_set k v d : NoDup (keys d) -> NoDup (keys (set k v d)).
Proof.
  intros Hnd. rewrite keys_set. unfold mem.
  destruct (get k d) eqn:E; [done|].
  apply NoDup_app. split; [done|]. split.
  - intros x Hx ->%list_elem_of_singleton. by apply get_None_keys in E.
  - apply NoDup_singleton.
Qed.
End Dict.
Arguments pydict : clear implicits.
End PyDict.

(** ** [device_registry.py]: class [DeviceRegistry] *)

Module DeviceRegistry.
Import PyStr.

(** One entry of the testbed's [devices] mapping.  A field is [None] when
    the key is absent, and [cfg_ip] is [connections.cli.ip]. *)
Record device_config := {
  cfg_platform : option string;
  cfg_os : option string;
  cfg_type : option string;
  cfg_alias : option string;
  cfg_ip : option string;
}.

(** A value of [self.devices]. *)
Record device := {
  dev_name : string;
  dev_vendor : string;
  dev_platform : string;
  dev_os : string;
  dev_type : string;
  dev_alias : string;
  dev_ip : string;
}.

Record registry := {
  devices : PyDict.pydict device;
  vendor_to_devices : PyDict.pydict (list string);
  platform_to_vendor : PyDict.pydict string;
  vendor_stack_map : gmap string string;
}.

(** The hard-coded [default_map] of [_load_vendor_stack_map]. *)
Definition default_map : gmap string string :=
  list_to_map
    [("cisco", "pyats"); ("linux", "ansible"); ("windows", "ansible");
     ("juniper", "ansible"); ("hpe", "ansible"); ("meraki", "ansible");
     ("azure", "ansible")].

(** [DeviceRegistry.__init__] before [load_devices] runs. *)
Definition empty_registry (stack_map : gmap string string) : registry :=
  {| devices := []; vendor_to_devices := []; platform_to_vendor := [];
     vendor_stack_map := stack_map |}.

Definition juniper_platforms : list string :=
  ["junos"; "juniper"; "vsrx"; "srx"; "mx"; "ex"].
Definition cisco_platforms : list string :=
  ["ios"; "iosxe"; "iosxr"; "csr"; "nxos"; "cisco"].
Definition hpe_platforms : list string := ["comware"; "hpe"; "hp"].
Definition linux_platforms : list string :=
  ["ubuntu"; "linux"; "debian"; "centos"; "rhel"].
Definition linux_os_types : list string :=
  ["linux"; "ubuntu"; "debian"; "centos"; "rhel"].
Definition windows_platforms : list string := ["windows"; "winrm"].

(** [_detect_vendor]: an ordered cascade, the first rule that matches
    returns. *)
Definition _detect_vendor (platform os_type device_name : string) : string :=
  if any_in juniper_platforms platform then "juniper"
  else if str_in "junos" os_type then "juniper"
  else if any_in cisco_platforms platform then "cisco"
  else if str_in "ios" os_type || str_in "iosxe" os_type then "cisco"
  else if any_in hpe_platforms platform then "hpe"
  else if str_in "comware" os_type then "hpe"
  else if str_in "meraki" platform || str_in "meraki" os_type then "meraki"
  else if any_in linux_platforms platform then "linux"
  else if any_in linux_os_types os_type then "linux"
  else if any_in windows_platforms platform then "windows"
  else if str_in "windows" os_type then "windows"
  else if truthy device_name then
    if str_in "router" (lower device_name) then "cisco"
    else if str_in "switch" (lower device_name) then "cisco"
    else if str_in "firewall" (lower device_name)
            || str_in "srx" (lower device_name) then "juniper"
    else if str_in "vm" (lower device_name)
            || str_in "host" (lower device_name) then "linux"
    else "unknown"
  else "unknown".

(** [register_device] *)
Definition register_device (self : registry) (device_name : string)
    (device_config : device_config) : registry :=
  let platform := lower (default "unknown" (cfg_platform device_config)) in
  let os_type := lower (default "unknown" (cfg_os device_config)) in
  let vendor := _detect_vendor platform os_type device_name in
  {| devices :=
       PyDict.set device_name
         {| dev_name := device_name;
            dev_vendor := vendor;
            dev_platform := platform;
            dev_os := os_type;
            dev_type := default "unknown" (cfg_type device_config);
            dev_alias := default "" (cfg_alias device_config);
            dev_ip := default "unknown" (cfg_ip device_config) |}
         (devices self);
     vendor_to_devices :=
       PyDict.set vendor
         (default [] (PyDict.get vendor (vendor_to_devices self))
            ++ [device_name])
         (vendor_to_devices self);
     platform_to_vendor :=
       if PyDict.mem platform (platform_to_vendor self)
       then platform_to_vendor self
       else PyDict.set platform vendor (platform_to_vendor self);
     vendor_stack_map := vendor_stack_map self |}.

(** The loop of [load_devices] over [testbed['devices'].items()]. *)
Definition load_devices (self : registry)
    (testbed : list (string * device_config)) : registry :=
  foldl (fun reg item => register_device reg item.1 item.2) self testbed.

(** [get_device_vendor] *)
Definition get_device_vendor (self : registry) (device_name : string)
    : option string :=
  dev_vendor <$> PyDict.get device_name (devices self).

(** [get_stack_for_vendor]: [None] and the empty string are falsy. *)
Definition get_stack_for_vendor (self : registry) (vendor : option string)
    : string :=
  match vendor with
  | None => "pyats"
  | Some v =>
      if truthy v then default "pyats" (vendor_stack_map self !! lower v)
      else "pyats"
  end.

(** [get_stack_for_device] *)
Definition get_stack_for_device (self : registry) (device_name : string)
    : string :=
  get_stack_for_vendor self (get_device_vendor self device_name).

(** [categorize_devices_by_stack]: [categorized.setdefault(stack, []).append(name)]
    for every truthy name, in input order.  [None] and the empty list are
    falsy and return the empty dictionary at once. *)
Definition categorize_step (self : registry)
    (categorized : PyDict.pydict (list string)) (device_name : string)
    : PyDict.pydict (list string) :=
  if truthy device_name then
    let stack := get_stack_for_device self device_name in
    PyDict.set stack
      (default [] (PyDict.get stack categorized) ++ [device_name]) categorized
  else categorized.

Definition categorize_devices_by_stack (self : registry)
    (device_names : option (list string)) : PyDict.pydict (list string) :=
  match device_names with
  | None | Some [] => []
  | Some names => foldl (categorize_step self) [] names
  end.

(** [extract_devices_from_text] *)
Definition extract_step (text_lower : string) (mentioned_devices : list string)
    (device_name : string) : list string :=
  if str_in (lower device_name) text_lower then
    if bool_decide (device_name ∈ mentioned_devices) then mentioned_devices
    else mentioned_devices ++ [device_name]
  else mentioned_devices.

Definition extract_devices_from_text (self : registry) (text : string)
    : list string :=
  foldl (extract_step (lower text)) [] (PyDict.keys (devices self)).

(** [get_vendor_from_keywords] *)
Definition get_vendor_from_keywords (text : string) : option string :=
  let text_lower := lower text in
  if any_in ["junos"; "juniper"; "vsrx"; "srx"] text_lower then Some "juniper"
  else if any_in ["cisco"; "ios"; "iosxe"] text_lower then Some "cisco"
  else if any_in ["comware"; "hpe"] text_lower then Some "hpe"
  else if any_in ["meraki"] text_lower then Some "meraki"
  else if any_in ["linux"; "ubuntu"; "bash"; "uname"] text_lower then Some "linux"
  else if any_in ["windows"; "powershell"; "Get-"] text_lower then Some "windows"
  else None.

(** [set.pop()] removes and returns an arbitrary element; which one depends
    on the hash order of the set.  The choice is a parameter of the model,
    constrained only to return a member of a non-empty set. *)
Class SetPop := {
  set_pop : gset string -> string;
  set_pop_elem : forall s : gset string, s ≠ ∅ -> set_pop s ∈ s;
}.

(** [set(self.get_device_vendor(dev) for dev in mentioned if dev in self.devices)] *)
Definition mentioned_vendors (self : registry) (mentioned_devices : list string)
    : gset string :=
  list_to_set
    (omap (fun dev => if PyDict.mem dev (devices self)
                      then get_device_vendor self dev else None)
          mentioned_devices).

(** [get_routing_path] *)
Definition get_routing_path `{SetPop} (self : registry) (text : string)
    : option (list string) * option string :=
  let mentioned_devices := extract_devices_from_text self text in
  let vendor_keyword := get_vendor_from_keywords text in
  match mentioned_devices with
  | _ :: _ =>
      let vendors := mentioned_vendors self mentioned_devices in
      let primary_vendor :=
        if decide (vendors = ∅) then None else Some (set_pop vendors) in
      (Some mentioned_devices, primary_vendor)
  | [] =>
      match vendor_keyword with
      | Some v => if truthy v then (None, Some v) else (None, None)
      | None => (None, None)
      end
  end.

(** One admissible [set.pop]: the first element of the set's enumeration. *)
#[export] Program Instance first_pop : SetPop :=
  {| set_pop s := default "" (head (elements s)) |}.
Next Obligation.
  intros s Hs. destruct (elements s) as [|x l] eqn:E.
  - by apply elements_empty_inv, leibniz_equiv in E.
  - simpl. apply elem_of_elements. rewrite E. apply list_elem_of_here.
Qed.

(** *** Vendor detection *)

Lemma any_in_cisco_iosxe platform :
  str_in "iosxe" platform = true -> any_in cisco_platforms platform = true.
Proof.
  intros H. apply any_in_true. exists "iosxe". split; [|exact H].
  unfold cisco_platforms. apply list_elem_of_In. set_solver.
Qed.

(** C1, as stated, fails: a platform that contains "iosxe" is still detected
    as Juniper when the OS field contains "junos", because the Juniper rules
    of the cascade run before the Cisco rules. *)
Lemma detect_vendor_iosxe_junos_os :
  str_in "iosxe" "iosxe" = true
  /\ _detect_vendor "iosxe" "junos" "R1" = "juniper"
  /\ _detect_vendor "iosxe" "junos" "R1" <> "cisco".
Proof. by vm_compute. Qed.

(** C1 (amended): when the platform contains "iosxe", [_detect_vendor] returns
    "cisco" unless a Juniper rule matches first (the platform contains one of
    junos, juniper, vsrx, srx, mx, ex, or the OS contains "junos"), in which
    case it returns "juniper"; the device name never matters. *)
Theorem detect_vendor_iosxe (platform os_type device_name : string) :
  str_in "iosxe" platform = true ->
  _detect_vendor platform os_type device_name =
    if any_in juniper_platforms platform || str_in "junos" os_type
    then "juniper" else "cisco".
Proof.
  intros H. unfold _detect_vendor.
  destruct (any_in juniper_platforms platform); [done|].
  destruct (str_in "junos" os_type); [done|].
  by rewrite (any_in_cisco_iosxe _ H).
Qed.

Lemma detect_vendor_iosxe_witness :
  str_in "iosxe" "cat9k-iosxe" = true
  /\ _detect_vendor "cat9k-iosxe" "linux" "edge-1" = "cisco".
Proof.
  split; [reflexivity|].
  apply (detect_vendor_iosxe "cat9k-iosxe" "linux" "edge-1"). reflexivity.
Defined.

(** *** Registration stores lower-cased metadata *)

(** What [register_device] guarantees of the entry stored under key [n]. *)
Definition stored_ok (n : string) (d : device) : Prop :=
  dev_name d = n
  /\ no_upper (dev_platform d) = true
  /\ no_upper (dev_os d) = true
  /\ dev_vendor d = _detect_vendor (dev_platform d) (dev_os d) n.

(** [device_config] with the platform and OS fields lower-cased. *)
Definition lower_config (c : device_config) : device_config :=
  {| cfg_platform := lower <$> cfg_platform c;
     cfg_os := lower <$> cfg_os c;
     cfg_type := cfg_type c;
     cfg_alias := cfg_alias c;
     cfg_ip := cfg_ip c |}.

Lemma lower_default_unknown (o : option string) :
  lower (default "unknown" (lower <$> o)) = lower (default "unknown" o).
Proof. destruct o as [s|]; simpl; [apply lower_idem | reflexivity]. Qed.

Lemma register_device_lower_config self device_name c :
  register_device self device_name (lower_config c)
  = register_device self device_name c.
Proof.
  unfold register_device, lower_config; simpl.
  by rewrite !lower_default_unknown.
Qed.

Lemma register_device_stored self device_name c :
  exists d,
    PyDict.get device_name (devices (register_device self device_name c)) = Some d
    /\ dev_platform d = lower (default "unknown" (cfg_platform c))
    /\ dev_os d = lower (default "unknown" (cfg_os c))
    /\ stored_ok device_name d.
Proof.
  eexists. split; [apply PyDict.get_set_eq|]. simpl.
  repeat split; apply lower_no_upper.
Qed.

Lemma register_device_preserves self device_name c :
  (forall n d, PyDict.get n (devices self) = Some d -> stored_ok n d) ->
  forall n d,
    PyDict.get n (devices (register_device self device_name c)) = Some d ->
    stored_ok n d.
Proof.
  intros Hinv n d. destruct (decide (device_name = n)) as [<-|Hne].
  - destruct (register_device_stored self device_name c) as (d' & -> & _ & _ & Hok).
    by intros [= <-].
  - simpl. rewrite PyDict.get_set_ne by done. apply Hinv.
Qed.

Lemma load_devices_preserves testbed : forall self,
  (forall n d, PyDict.get n (devices self) = Some d -> stored_ok n d) ->
  forall n d,
    PyDict.get n (devices (load_devices self testbed)) = Some d -> stored_ok n d.
Proof.
  induction testbed as [|[name c] testbed IH]; intros self Hinv; [exact Hinv|].
  apply (IH (register_device self name c)).
  by apply register_device_preserves.
Qed.

(** C10: [register_device] lower-cases platform and OS before vendor detection
    and before storing.  Two equivalent readings are proved: feeding the
    lower-cased configuration gives the same registry (detection is
    case-insensitive on the inventory metadata), and every device of a loaded
    registry is stored under its case-preserved name with lower-case
    [platform] and [os] fields, its vendor being the one detected from those
    lower-cased fields. *)
Theorem register_device_lower_cases
    (stack_map : gmap string string) (testbed : list (string * device_config))
    (self : registry) (device_name : string) (c : device_config) :
  register_device self device_name (lower_config c)
    = register_device self device_name c
  /\ (exists d,
       PyDict.get device_name (devices (register_device self device_name c))
         = Some d
       /\ dev_name d = device_name
       /\ dev_platform d = lower (default "unknown" (cfg_platform c))
       /\ dev_os d = lower (default "unknown" (cfg_os c))
       /\ dev_vendor d = _detect_vendor (dev_platform d) (dev_os d) device_name)
  /\ (forall n d,
       PyDict.get n (devices (load_devices (empty_registry stack_map) testbed))
         = Some d ->
       dev_name d = n
       /\ no_upper (dev_platform d) = true
       /\ lower (dev_platform d) = dev_platform d
       /\ no_upper (dev_os d) = true
       /\ lower (dev_os d) = dev_os d
       /\ dev_vendor d = _detect_vendor (dev_platform d) (dev_os d) n).
Proof.
  split; [apply register_device_lower_config|]. split.
  - destruct (register_device_stored self device_name c)
      as (d & Hget & Hp & Ho & Hn & _ & _ & Hv).
    exists d. by repeat split.
  - intros n d Hget.
    assert (stored_ok n d) as (Hn & Hp & Ho & Hv).
    { eapply load_devices_preserves; [|exact Hget]. by intros ? ? [=]. }
    repeat split; try done; by apply no_upper_lower_id.
Qed.

(** A mixed-case inventory entry: the key keeps its case, the metadata does
    not. *)
Example register_device_mixed_case :
  devices (register_device (empty_registry default_map) "Core-R1"
             {| cfg_platform := Some "IOSXE"; cfg_os := Some "IOS-XE";
                cfg_type := Some "router"; cfg_alias := None;
                cfg_ip := Some "10.0.0.1" |})
  = [("Core-R1",
      {| dev_name := "Core-R1"; dev_vendor := "cisco"; dev_platform := "iosxe";
         dev_os := "ios-xe"; dev_type := "router"; dev_alias := "";
         dev_ip := "10.0.0.1" |})].
Proof. reflexivity. Qed.

(** *** Categorising devices by automation stack *)

(** The names of [names] that [categorize_devices_by_stack] files under
    stack [s]: the truthy ones that resolve to [s], in input order. *)
Definition stack_members (self : registry) (s : string) (names : list string)
    : list string :=
  filter (fun n => truthy n = true /\ get_stack_for_device self n = s) names.

Lemma categorize_foldl_get self s names : forall categorized,
  PyDict.get s (foldl (categorize_step self) categorized names) =
    match stack_members self s names with
    | [] => PyDict.get s categorized
    | l => Some (default [] (PyDict.get s categorized) ++ l)
    end.
Proof.
  unfold stack_members.
  induction names as [|n names IH]; intros categorized; [done|].
  simpl foldl. rewrite IH. unfold categorize_step.
  destruct (truthy n) eqn:Hn.
  - destruct (decide (get_stack_for_device self n = s)) as [Hs|Hs].
    + rewrite filter_cons_True by done. rewrite Hs, PyDict.get_set_eq. simpl.
      destruct (filter _ names); [done|]. by rewrite <- app_assoc.
    + rewrite filter_cons_False by (intros [_ ?]; done).
      by rewrite PyDict.get_set_ne.
  - rewrite filter_cons_False by (intros [? _]; congruence). done.
Qed.

Lemma categorize_foldl_NoDup self names : forall categorized,
  NoDup (PyDict.keys categorized) ->
  NoDup (PyDict.keys (foldl (categorize_step self) categorized names)).
Proof.
  induction names as [|n names IH]; intros categorized Hnd; [done|].
  simpl. apply IH. unfold categorize_step.
  destruct (truthy n); [by apply PyDict.NoDup_keys_set | done].
Qed.

Lemma categorize_get self s names :
  PyDict.get s (categorize_devices_by_stack self (Some names)) =
    match stack_members self s names with
    | [] => None
    | l => Some l
    end.
Proof.
  destruct names as [|n names]; [done|].
  unfold categorize_devices_by_stack. by rewrite categorize_foldl_get.
Qed.

Lemma stack_members_all_truthy self s names :
  Forall (fun n => truthy n = true) names ->
  stack_members self s names
  = filter (fun n => get_stack_for_device self n = s) names.
Proof.
  unfold stack_members. induction 1 as [|n names Hn _ IH]; [done|].
  destruct (decide (get_stack_for_device self n = s)).
  - by rewrite !filter_cons_True, IH.
  - rewrite !filter_cons_False; [done | done | by intros [_ ?]].
Qed.

(** A name that is not registered resolves to the default stack. *)
Lemma get_stack_for_unregistered self n :
  get_device_vendor self n = None -> get_stack_for_device self n = "pyats".
Proof. unfold get_stack_for_device. by intros ->. Qed.

(** Falsy names never reach a group, whatever the input. *)
Lemma categorize_drops_falsy self names :
  categorize_devices_by_stack self (Some names)
  = categorize_devices_by_stack self
      (Some (filter (fun n => truthy n = true) names)).
Proof.
  assert (forall l categorized,
    foldl (categorize_step self) categorized l
    = foldl (categorize_step self) categorized
        (filter (fun n => truthy n = true) l)) as Hfold.
  { induction l as [|n l IH]; intros categorized; [done|].
    destruct (truthy n) eqn:Hn.
    - rewrite filter_cons_True by done. simpl. apply IH.
    - rewrite filter_cons_False by congruence. simpl.
      unfold categorize_step at 2. rewrite Hn. apply IH. }
  unfold categorize_devices_by_stack.
  destruct names as [|n names]; [done|]. rewrite Hfold.
  by destruct (filter _ (n :: names)).
Qed.

(** C9: for a list of non-empty names the result is a partition of the input
    by resolved stack.  The keys are pairwise distinct; the group stored under
    stack [s] is exactly the sub-list of the input that resolves to [s] (never
    empty); a name occurs in the input iff it occurs in some group; it occurs
    in the group of one stack only; and a name without a registered device is
    filed under "pyats".  Independently of the hypothesis, only falsy names
    are dropped. *)
Theorem categorize_devices_by_stack_partition
    (self : registry) (names : list string) :
  Forall (fun n => truthy n = true) names ->
  let categorized := categorize_devices_by_stack self (Some names) in
  NoDup (PyDict.keys categorized)
  /\ (forall s g, PyDict.get s categorized = Some g ->
        g ≠ [] /\ g = filter (fun n => get_stack_for_device self n = s) names)
  /\ (forall n, n ∈ names <->
        exists s g, PyDict.get s categorized = Some g /\ n ∈ g)
  /\ (forall n s1 g1 s2 g2,
        PyDict.get s1 categorized = Some g1 -> n ∈ g1 ->
        PyDict.get s2 categorized = Some g2 -> n ∈ g2 -> s1 = s2)
  /\ (forall n, n ∈ names -> get_device_vendor self n = None ->
        exists g, PyDict.get "pyats" categorized = Some g /\ n ∈ g)
  /\ (forall l, categorize_devices_by_stack self (Some l)
        = categorize_devices_by_stack self
            (Some (filter (fun n => truthy n = true) l))).
Proof.
  intros Hall categorized.
  assert (forall s g, PyDict.get s categorized = Some g ->
            g ≠ [] /\ g = filter (fun n => get_stack_for_device self n = s) names)
    as Hgroup.
  { intros s g. unfold categorized. rewrite categorize_get.
    rewrite stack_members_all_truthy by done.
    destruct (filter _ names) eqn:E; [done|]. by intros [= <-]. }
  assert (forall n, n ∈ names ->
            exists g, PyDict.get (get_stack_for_device self n) categorized = Some g
                      /\ n ∈ g) as Hland.
  { intros n Hn. unfold categorized. rewrite categorize_get.
    rewrite stack_members_all_truthy by done.
    assert (n ∈ filter (fun m => get_stack_for_device self m
                                 = get_stack_for_device self n) names) as Hin
      by by apply list_elem_of_filter.
    destruct (filter _ names) eqn:E; [by apply elem_of_nil in Hin|]. eauto. }
  split; [|split; [exact Hgroup|split; [|split; [|split]]]].
  - unfold categorized, categorize_devices_by_stack.
    destruct names; [apply NoDup_nil_2|].
    apply categorize_foldl_NoDup, NoDup_nil_2.
  - intros n. split.
    + intros Hn. destruct (Hland n Hn) as (g & Hg & Hin). eauto.
    + intros (s & g & Hg & Hin). apply Hgroup in Hg as [_ ->].
      by apply list_elem_of_filter in Hin as [_ ?].
  - intros n s1 g1 s2 g2 H1 Hin1 H2 Hin2.
    apply Hgroup in H1 as [_ ->]. apply Hgroup in H2 as [_ ->].
    apply list_elem_of_filter in Hin1 as [<- _].
    by apply list_elem_of_filter in Hin2 as [<- _].
  - intros n Hn Hv. rewrite <- (get_stack_for_unregistered self n Hv).
    by apply Hland.
  - apply categorize_drops_falsy.
Qed.

(** A two-device inventory used by the examples below. *)
Definition demo_registry : registry :=
  load_devices (empty_registry default_map)
    [("R1", {| cfg_platform := Some "iosxe"; cfg_os := Some "iosxe";
               cfg_type := Some "router"; cfg_alias := None;
               cfg_ip := Some "10.0.0.1" |});
     ("J1", {| cfg_platform := Some "junos"; cfg_os := Some "junos";
               cfg_type := Some "router"; cfg_alias := None;
               cfg_ip := Some "10.0.0.2" |})].

Lemma categorize_partition_witness :
  Forall (fun n => truthy n = true) ["R1"; "J1"; "ghost"; "R1"]
  /\ categorize_devices_by_stack demo_registry (Some ["R1"; "J1"; "ghost"; "R1"])
     = [("pyats", ["R1"; "ghost"; "R1"]); ("ansible", ["J1"])]
  /\ forall n, n ∈ ["R1"; "J1"; "ghost"; "R1"] <->
       exists s g,
         PyDict.get s (categorize_devices_by_stack demo_registry
                         (Some ["R1"; "J1"; "ghost"; "R1"])) = Some g
         /\ n ∈ g.
Proof.
  assert (Forall (fun n => truthy n = true) ["R1"; "J1"; "ghost"; "R1"]) as H
    by (repeat constructor).
  split; [exact H|]. split; [reflexivity|].
  exact (proj1 (proj2 (proj2
    (categorize_devices_by_stack_partition demo_registry _ H)))).
Defined.

(** *** Routing *)

Lemma extract_foldl_subset text_lower (K : list string) l : forall acc,
  (forall x, x ∈ acc -> x ∈ K) -> (forall x, x ∈ l -> x ∈ K) ->
  forall x, x ∈ foldl (extract_step text_lower) acc l -> x ∈ K.
Proof.
  induction l as [|n l IH]; intros acc Hacc Hl; [exact Hacc|].
  simpl. apply IH.
  - intros x. unfold extract_step.
    destruct (str_in _ _); [|apply Hacc].
    case_bool_decide; [apply Hacc|].
    intros [?| ->%list_elem_of_singleton]%elem_of_app; [by apply Hacc|].
    apply Hl, list_elem_of_here.
  - intros x Hx. by apply Hl, list_elem_of_further.
Qed.

(** Every extracted name is a key of [self.devices]. *)
Lemma extract_devices_registered self text dev :
  dev ∈ extract_devices_from_text self text ->
  exists d, PyDict.get dev (devices self) = Some d.
Proof.
  intros Hin.
  assert (dev ∈ PyDict.keys (devices self)) as Hk.
  { eapply extract_foldl_subset; [| |exact Hin]; [|done].
    by intros x Hx%elem_of_nil. }
  destruct (PyDict.get dev (devices self)) as [d|] eqn:E; [eauto|].
  by apply PyDict.get_None_keys in E.
Qed.

Lemma mentioned_vendors_spec self mentioned v :
  v ∈ mentioned_vendors self mentioned <->
  exists dev, dev ∈ mentioned /\ get_device_vendor self dev = Some v.
Proof.
  unfold mentioned_vendors. rewrite elem_of_list_to_set, list_elem_of_omap.
  split; intros (dev & Hin & Hv); exists dev; (split; [done|]).
  - by destruct (PyDict.mem dev (devices self)).
  - unfold PyDict.mem, get_device_vendor in *.
    by destruct (PyDict.get dev (devices self)).
Qed.

Lemma get_vendor_from_keywords_truthy text v :
  get_vendor_from_keywords text = Some v -> truthy v = true.
Proof.
  unfold get_vendor_from_keywords.
  repeat (destruct (any_in _ _); [by intros [= <-]|]). done.
Qed.

(** C4, as stated, fails: when the named devices belong to two vendors the
    returned pair carries one vendor only, not the set of both. *)
Lemma get_routing_path_two_vendors :
  extract_devices_from_text demo_registry "compare R1 and J1" = ["R1"; "J1"]
  /\ elements (mentioned_vendors demo_registry ["R1"; "J1"])
     = ["cisco"; "juniper"]
  /\ get_routing_path demo_registry "compare R1 and J1"
     = (Some ["R1"; "J1"], Some "cisco").
Proof. by vm_compute. Qed.

(** C4 (amended): [get_routing_path] returns, for any admissible [set.pop],
    - the mentioned devices and ONE vendor, a member of the set of vendors of
      those devices, when a registered device is named in the text (that
      vendor is [v] itself when all named devices have vendor [v]);
    - [(None, vendor)] when no device is named and a vendor keyword occurs;
    - [(None, None)] otherwise.
    The two scenarios follow: "show interfaces on R1" with R1 the only
    registered device named in the text and of vendor "cisco" gives
    [(["R1"], "cisco")], and "check junos uptime" with no device named gives
    [(None, "juniper")]. *)
Theorem get_routing_path_cases `{SetPop} (self : registry) (text : string) :
  let mentioned := extract_devices_from_text self text in
  (mentioned ≠ [] ->
     exists v dev,
       get_routing_path self text = (Some mentioned, Some v)
       /\ v ∈ mentioned_vendors self mentioned
       /\ dev ∈ mentioned /\ get_device_vendor self dev = Some v)
  /\ (forall v, mentioned ≠ [] ->
        (forall dev, dev ∈ mentioned -> get_device_vendor self dev = Some v) ->
        get_routing_path self text = (Some mentioned, Some v))
  /\ (mentioned = [] ->
        get_routing_path self text = (None, get_vendor_from_keywords text))
  /\ (extract_devices_from_text self "show interfaces on R1" = ["R1"] ->
      get_device_vendor self "R1" = Some "cisco" ->
      get_routing_path self "show interfaces on R1" = (Some ["R1"], Some "cisco"))
  /\ (extract_devices_from_text self "check junos uptime" = [] ->
      get_routing_path self "check junos uptime" = (None, Some "juniper")).
Proof.
  assert (forall t, extract_devices_from_text self t ≠ [] ->
    exists v dev,
      get_routing_path self t = (Some (extract_devices_from_text self t), Some v)
      /\ v ∈ mentioned_vendors self (extract_devices_from_text self t)
      /\ dev ∈ extract_devices_from_text self t
      /\ get_device_vendor self dev = Some v) as Hsome.
  { intros t Hne. unfold get_routing_path.
    destruct (extract_devices_from_text self t) as [|dev0 rest] eqn:E; [done|].
    assert (mentioned_vendors self (dev0 :: rest) ≠ ∅) as Hvs.
    { destruct (extract_devices_registered self t dev0) as [d Hd].
      { rewrite E. apply list_elem_of_here. }
      intros Hempty.
      assert (dev_vendor d ∈ mentioned_vendors self (dev0 :: rest)) as Hin.
      { apply mentioned_vendors_spec. exists dev0.
        split; [apply list_elem_of_here|].
        unfold get_device_vendor. by rewrite Hd. }
      rewrite Hempty in Hin. by apply not_elem_of_empty in Hin. }
    rewrite decide_False by done.
    pose proof (set_pop_elem _ Hvs) as Hpop.
    destruct (proj1 (mentioned_vendors_spec _ _ _) Hpop) as (dev & Hdev & Hv).
    by exists (set_pop (mentioned_vendors self (dev0 :: rest))), dev. }
  assert (forall t v, extract_devices_from_text self t ≠ [] ->
    (forall dev, dev ∈ extract_devices_from_text self t ->
                 get_device_vendor self dev = Some v) ->
    get_routing_path self t = (Some (extract_devices_from_text self t), Some v))
    as Hone.
  { intros t v Hne Hall.
    destruct (Hsome t Hne) as (v' & dev & -> & _ & Hdev & Hv').
    rewrite (Hall dev Hdev) in Hv'. by injection Hv' as ->. }
  assert (forall t, extract_devices_from_text self t = [] ->
    get_routing_path self t = (None, get_vendor_from_keywords t)) as Hnone.
  { intros t E. unfold get_routing_path. rewrite E.
    destruct (get_vendor_from_keywords t) as [v|] eqn:Ek; [|done].
    by rewrite (get_vendor_from_keywords_truthy _ _ Ek). }
  intros mentioned.
  split; [apply Hsome|]. split; [intros v; apply Hone|].
  split; [apply Hnone|]. split.
  - intros E Hv. rewrite <- E. apply Hone; rewrite E; [done|].
    by intros dev ->%list_elem_of_singleton.
  - intros E. by rewrite (Hnone _ E).
Qed.

Example get_routing_path_scenarios :
  get_routing_path demo_registry "show interfaces on R1"
    = (Some ["R1"], Some "cisco")
  /\ get_routing_path demo_registry "check junos uptime" = (None, Some "juniper")
  /\ get_routing_path demo_registry "restart the print spooler" = (None, None).
Proof. by vm_compute. Qed.

Lemma get_routing_path_cases_witness :
  extract_devices_from_text demo_registry "show interfaces on R1" = ["R1"]
  /\ get_device_vendor demo_registry "R1" = Some "cisco"
  /\ get_routing_path demo_registry "show interfaces on R1"
     = (Some ["R1"], Some "cisco").
Proof.
  assert (extract_devices_from_text demo_registry "show interfaces on R1"
          = ["R1"]) as E by reflexivity.
  assert (get_device_vendor demo_registry "R1" = Some "cisco") as V
    by reflexivity.
  split; [exact E|]. split; [exact V|].
  exact (proj1 (proj2 (proj2 (proj2
    (get_routing_path_cases demo_registry "show interfaces on R1")))) E V).
Defined.

End DeviceRegistry.

(** ** Exceptions

    Fallible Python code returns an [outcome]: a value, or a raised
    exception.  Every exception modelled here is a subclass of [Exception]. *)

Module PyExn.

Inductive exn :=
| JSONDecodeError
| AttributeError
| TypeError
| ValueError
| KeyError
| ZeroDivisionError
| ImportError
| OtherException (what : string).

Inductive outcome (A : Type) :=
| Return (a : A)
| Raise (e : exn).
Arguments Return {A} a.
Arguments Raise {A} e.

#[export] Instance outcome_ret : MRet outcome := fun A a => Return a.
#[export] Instance outcome_bind : MBind outcome := fun A B f m =>
  match m with
  | Return a => f a
  | Raise e => Raise e
  end.

(** [try: body  except <catches>: handler] *)
Definition try_except {A} (body : outcome A) (catches : exn -> bool)
    (handler : outcome A) : outcome A :=
  match body with
  | Return a => Return a
  | Raise e => if catches e then handler else Raise e
  end.

(** [except json.JSONDecodeError] *)
Definition is_JSONDecodeError (e : exn) : bool :=
  match e with JSONDecodeError => true | _ => false end.

(** [except Exception] *)
Definition is_Exception (e : exn) : bool := true.

Definition returns {A} (m : outcome A) : Prop := exists a, m = Return a.

End PyExn.

(** ** [intent_classifier.py]: class [IntentClassifier] *)

Module IntentClassifier.
Import PyStr PyExn.

(** [class RequestIntent(str, Enum)] *)
Inductive RequestIntent :=
| KNOWLEDGE
| NETWORK_DEVICE
| INFRASTRUCTURE
| SERVICENOW
| SEARCH
| OTHER.

#[export] Instance RequestIntent_eq_dec : EqDecision RequestIntent.
Proof. solve_decision. Defined.

(** [list(RequestIntent)]: members in definition order. *)
Definition all_intents : list RequestIntent :=
  [KNOWLEDGE; NETWORK_DEVICE; INFRASTRUCTURE; SERVICENOW; SEARCH; OTHER].

(** Position of a member in the enumeration. *)
Definition enum_index (i : RequestIntent) : nat :=
  match i with
  | KNOWLEDGE => 0
  | NETWORK_DEVICE => 1
  | INFRASTRUCTURE => 2
  | SERVICENOW => 3
  | SEARCH => 4
  | OTHER => 5
  end.

(** [intent.value] *)
Definition value (i : RequestIntent) : string :=
  match i with
  | KNOWLEDGE => "KNOWLEDGE"
  | NETWORK_DEVICE => "NETWORK_DEVICE"
  | INFRASTRUCTURE => "INFRASTRUCTURE"
  | SERVICENOW => "SERVICENOW"
  | SEARCH => "SEARCH"
  | OTHER => "OTHER"
  end.

(** [RequestIntent[name]]: lookup by member name, [KeyError] otherwise. *)
Definition RequestIntent_getitem (name : string) : outcome RequestIntent :=
  match find (fun i => bool_decide (value i = name)) all_intents with
  | Some i => Return i
  | None => Raise KeyError
  end.

(** JSON values as [json.loads] returns them. *)
Unset Elimination Schemes.
Inductive json :=
| JNull
| JBool (b : bool)
| JNum (q : Q)
| JStr (s : string)
| JArr (items : list json)
| JObj (fields : list (string * json)).
Set Elimination Schemes.

(** The dictionary a classification call returns. *)
Record ClassificationResult := {
  intent : RequestIntent;
  confidence : Q;
  reasoning : json;
  method : string;
}.

(** The keyword lists of the [patterns] table of [_classify_with_keywords]. *)
Definition infrastructure_keywords : list string :=
  ["create vm"; "create vnet"; "create subnet"; "create firewall";
   "create azure"; "deploy vm"; "terraform"; "infrastructure";
   "storage account"; "app gateway"; "resource group"].
Definition network_device_keywords : list string :=
  ["show interface"; "show version"; "configure"; "cisco";
   "router"; "switch"; "device"; "testbed"; "pyats";
   "r1"; "r2"; "sw1"; "sw2"; "vlan"; "acl"; "bgp"].
Definition servicenow_keywords : list string :=
  ["create ticket"; "incident"; "problem"; "ticket";
   "create problem"; "create incident"].
Definition knowledge_keywords : list string :=
  ["what is"; "explain"; "tell me about"; "how does";
   "definition of"; "describe"; "what are"; "information about"].
Definition search_keywords : list string :=
  ["search for"; "find"; "look up"; "research"].

(** The [patterns] table, in dictionary order. *)
Definition patterns : list (RequestIntent * list string) :=
  [(INFRASTRUCTURE, infrastructure_keywords);
   (NETWORK_DEVICE, network_device_keywords);
   (SERVICENOW, servicenow_keywords);
   (KNOWLEDGE, knowledge_keywords);
   (SEARCH, search_keywords)].

(** [intent_scores]: a dictionary whose key set is the whole enumeration from
    its creation on, iterated in the order of [all_intents]. *)
Definition scores := RequestIntent -> nat.

(** [{intent: 0 for intent in RequestIntent}] *)
Definition initial_scores : scores := fun _ => 0.

(** [intent_scores[intent] += 1] *)
Definition bump (i : RequestIntent) (s : scores) : scores :=
  fun j => if decide (i = j) then S (s j) else s j.

(** The inner loop over the keywords of one intent. *)
Definition count_keywords (query_lower : string) (i : RequestIntent)
    (keywords : list string) (s : scores) : scores :=
  foldl (fun s keyword => if str_in keyword query_lower then bump i s else s)
        s keywords.

(** The outer loop over [patterns.items()]. *)
Definition count_patterns (query_lower : string)
    (table : list (RequestIntent * list string)) (s : scores) : scores :=
  foldl (fun s entry => count_keywords query_lower entry.1 entry.2 s) s table.

(** [max(keys, key=f)]: the first key whose value is maximal; [ValueError]
    on an empty sequence. *)
Definition py_max {A} (f : A -> nat) (keys : list A) : outcome A :=
  match keys with
  | [] => Raise ValueError
  | k :: rest =>
      Return (foldl (fun best k' => if f best <? f k' then k' else best) k rest)
  end.

(** [a / b] on non-negative integers, as an exact rational. *)
Definition py_div (a b : nat) : outcome Q :=
  if b =? 0 then Raise ZeroDivisionError
  else Return (Z.of_nat a # Pos.of_nat b).

(** [sum(intent_scores.values())] *)
Definition sum_scores (s : scores) : nat := sum_list (s <$> all_intents).

(** [_classify_with_keywords] *)
Definition _classify_with_keywords (user_query : string)
    : outcome ClassificationResult :=
  let query_lower := lower user_query in
  let intent_scores := count_patterns query_lower patterns initial_scores in
  best_intent ← py_max intent_scores all_intents;
  if intent_scores best_intent =? 0 then
    Return {| intent := OTHER; confidence := 3 # 10;
              reasoning := JStr ("Keyword match: " +:+ value OTHER);
              method := "keywords" |}
  else
    let total := sum_scores intent_scores in
    confidence ← py_div (intent_scores best_intent) total;
    Return {| intent := best_intent; confidence := confidence;
              reasoning := JStr ("Keyword match: " +:+ value best_intent);
              method := "keywords" |}.


(** *** The model-based path

    The chat-completion collaborator, [json.loads] and [float] on strings are
    not code of this repository: they are parameters of the model, and every
    statement below holds for all of them. *)

(** [self.client.chat.completions.create(model=..., messages=[system, user],
    temperature=0.3, max_tokens=200)] followed by
    [response.choices[0].message.content.strip()]: the stripped text, or the
    exception that any of these steps raised.  The system prompt, the
    temperature and the token limit are constants of the call. *)
Definition llm_client := option string -> string -> outcome string.

(** What [from http_server import client, OLLAMA_MODEL, GROQ_MODEL,
    USE_OLLAMA_FLAG, USE_GROQ_FLAG] binds. *)
Record http_server_exports := {
  shared_client : option llm_client;
  OLLAMA_MODEL : option string;
  GROQ_MODEL : option string;
  USE_OLLAMA_FLAG : bool;
  USE_GROQ_FLAG : bool;
}.

(** The attributes of an [IntentClassifier]. *)
Record classifier := {
  client : option llm_client;
  model : option string;
}.

Section Classify.

(** [json.loads] *)
Variable json_loads : string -> outcome json.
(** [float(s)] for a string [s]; [None] stands for [ValueError]. *)
Variable float_of_str : string -> option Q.

(** [result.get(key, default)]: only a dictionary has [get]. *)
Definition json_get (result : json) (key : string) (dflt : json)
    : outcome json :=
  match result with
  | JObj fields => Return (default dflt (PyDict.get key fields))
  | _ => Raise AttributeError
  end.

(** [v.upper()]: only a string has [upper]. *)
Definition json_upper (v : json) : outcome string :=
  match v with
  | JStr s => Return (upper s)
  | _ => Raise AttributeError
  end.

(** [float(v)] *)
Definition py_float (v : json) : outcome Q :=
  match v with
  | JNum q => Return q
  | JBool b => Return (if b then 1%Q else 0%Q)
  | JStr s =>
      match float_of_str s with
      | Some q => Return q
      | None => Raise ValueError
      end
  | JNull | JArr _ | JObj _ => Raise TypeError
  end.

(** The body of the inner [try] of [_classify_with_llm]. *)
Definition parse_llm_response (response_text : string)
    : outcome ClassificationResult :=
  result ← json_loads response_text;
  raw_intent ← json_get result "intent" (JStr "OTHER");
  intent_str ← json_upper raw_intent;
  raw_confidence ← json_get result "confidence" (JNum (1 # 2));
  confidence ← py_float raw_confidence;
  reasoning ← json_get result "reasoning" (JStr "LLM classification");
  intent ← try_except (RequestIntent_getitem intent_str)
             (fun e => match e with KeyError => true | _ => false end)
             (Return OTHER);
  Return {| intent := intent; confidence := confidence;
            reasoning := reasoning; method := "llm" |}.

(** [_classify_with_llm] *)
Definition _classify_with_llm (c : llm_client) (self_model : option string)
    (user_query : string) : outcome ClassificationResult :=
  try_except
    (response_text ← c self_model user_query;
     try_except (parse_llm_response response_text)
       is_JSONDecodeError (_classify_with_keywords user_query))
    is_Exception (_classify_with_keywords user_query).

(** [classify].  [imported] is what the import of [http_server] yields when
    it is attempted: [None] when it raises [ImportError]. *)
Definition classify (self : classifier) (imported : option http_server_exports)
    (user_query : string) : outcome ClassificationResult * classifier :=
  let after_import : classifier + unit :=
    match client self with
    | Some _ => inl self
    | None =>
        match imported with
        | None => inr tt
        | Some m =>
            inl {| client := shared_client m;
                   model :=
                     if USE_OLLAMA_FLAG m then OLLAMA_MODEL m
                     else if USE_GROQ_FLAG m then GROQ_MODEL m
                     else match model self with
                          | None => Some "gpt-3.5-turbo"
                          | Some md => Some md
                          end |}
        end
    end in
  match after_import with
  | inr _ => (_classify_with_keywords user_query, self)
  | inl self' =>
      match client self' with
      | None => (_classify_with_keywords user_query, self')
      | Some c => (_classify_with_llm c (model self') user_query, self')
      end
  end.

(** A sequence of calls on one classifier; each call comes with what its
    import attempt would yield. *)
Fixpoint classify_all (self : classifier)
    (calls : list (option http_server_exports * string))
    : list (outcome ClassificationResult) :=
  match calls with
  | [] => []
  | (imported, user_query) :: rest =>
      let '(r, self') := classify self imported user_query in
      r :: classify_all self' rest
  end.

End Classify.


(** *** Keyword fallback *)

(** The keywords the table lists for an intent ([OTHER] has none). *)
Definition keywords_of (i : RequestIntent) : list string :=
  match i with
  | INFRASTRUCTURE => infrastructure_keywords
  | NETWORK_DEVICE => network_device_keywords
  | SERVICENOW => servicenow_keywords
  | KNOWLEDGE => knowledge_keywords
  | SEARCH => search_keywords
  | OTHER => []
  end.

(** The keyword-occurrence score of an intent: how many of its keyword
    phrases occur in the lower-cased query. *)
Definition keyword_score (query_lower : string) (i : RequestIntent) : nat :=
  length (filter (fun k => str_in k query_lower = true) (keywords_of i)).

Lemma count_keywords_spec q i ks : forall s j,
  count_keywords q i ks s j =
    s j + (if decide (i = j)
           then length (filter (fun k => str_in k q = true) ks) else 0).
Proof.
  unfold count_keywords.
  induction ks as [|k ks IH]; intros s j; simpl foldl.
  - destruct (decide (i = j)); simpl; lia.
  - rewrite IH. destruct (str_in k q) eqn:Hk.
    + rewrite filter_cons_True by done. unfold bump.
      destruct (decide (i = j)); simpl; lia.
    + rewrite filter_cons_False by congruence. done.
Qed.

(** The counting loops compute the keyword-occurrence scores. *)
Lemma count_patterns_score q j :
  count_patterns q patterns initial_scores j = keyword_score q j.
Proof.
  unfold count_patterns, patterns. cbn [foldl fst snd].
  rewrite !count_keywords_spec.
  unfold keyword_score, initial_scores.
  destruct j; repeat case_decide; try done; cbn [keywords_of];
    rewrite ?filter_nil; cbn [length]; lia.
Qed.

(** [max] over the enumeration returns a maximal member, the first one in
    enumeration order among those that tie. *)
Lemma py_max_all_intents (f : RequestIntent -> nat) :
  exists b,
    py_max f all_intents = Return b
    /\ (forall j, f j <= f b)
    /\ (forall j, f j = f b -> enum_index b <= enum_index j).
Proof.
  unfold py_max, all_intents. eexists. split; [reflexivity|].
  cbn [foldl].
  repeat match goal with
         | |- context [?a <? ?b] =>
             lazymatch a with
             | context [if _ then _ else _] => fail
             | _ => destruct (Nat.ltb_spec a b)
             end
         end;
    (split; intros j; destruct j; simpl; lia).
Qed.

Lemma sum_scores_ext (s1 s2 : scores) :
  (forall j, s1 j = s2 j) -> sum_scores s1 = sum_scores s2.
Proof. intros H. unfold sum_scores, all_intents. simpl. by rewrite !H. Qed.

Lemma sum_scores_ge (s : scores) j : s j <= sum_scores s.
Proof. unfold sum_scores, all_intents. destruct j; simpl; lia. Qed.

(** C3: keyword fallback never raises and tags its result "keywords".  With
    [score] the keyword-occurrence score on the lower-cased text: if every
    score is 0 the intent is OTHER with confidence 3/10; otherwise the
    intent has the highest score, is the first in enumeration order among the
    intents of that score, and the confidence is its score divided by the sum
    of all scores.  The result is a function of the text alone. *)
Theorem classify_with_keywords_spec (user_query : string) :
  let score := keyword_score (lower user_query) in
  exists r,
    _classify_with_keywords user_query = Return r
    /\ method r = "keywords"
    /\ ((forall j, score j = 0) ->
          intent r = OTHER /\ confidence r = 3 # 10)
    /\ ((exists j, score j ≠ 0) ->
          (forall j, score j <= score (intent r))
          /\ (forall j, score j = score (intent r) ->
                enum_index (intent r) <= enum_index j)
          /\ confidence r
             = (Z.of_nat (score (intent r))
                # Pos.of_nat (sum_list (score <$> all_intents))))
    /\ (forall again, again = user_query ->
          _classify_with_keywords again = Return r).
Proof.
  intros score. unfold _classify_with_keywords.
  set (s := count_patterns (lower user_query) patterns initial_scores).
  assert (forall j, s j = score j) as Hs by apply count_patterns_score.
  destruct (py_max_all_intents s) as (b & Hb & Hmax & Hfirst).
  rewrite Hb. cbn [mbind outcome_bind].
  destruct (s b =? 0) eqn:Hzero.
  - apply Nat.eqb_eq in Hzero.
    eexists. split; [reflexivity|]. split; [reflexivity|].
    split; [done|]. split.
    + intros [j Hj]. exfalso. apply Hj. rewrite <- Hs.
      specialize (Hmax j). lia.
    + intros again ->. fold s. rewrite Hb. cbn [mbind outcome_bind].
      by rewrite (proj2 (Nat.eqb_eq _ _) Hzero).
  - apply Nat.eqb_neq in Hzero.
    assert (sum_scores s ≠ 0) as Htotal
      by (pose proof (sum_scores_ge s b); lia).
    unfold py_div. rewrite (proj2 (Nat.eqb_neq _ _) Htotal).
    cbn [mbind outcome_bind].
    eexists. split; [reflexivity|]. split; [reflexivity|]. cbn [intent confidence].
    split; [|split].
    + intros Hall. exfalso. apply Hzero. rewrite Hs. apply Hall.
    + intros _. split; [|split].
      * intros j. rewrite <- !Hs. apply Hmax.
      * intros j. rewrite <- !Hs. apply Hfirst.
      * rewrite <- Hs. f_equal. f_equal.
        change (sum_scores s = sum_scores score). by apply sum_scores_ext.
    + intros again ->. fold s. rewrite Hb. cbn [mbind outcome_bind].
      rewrite (proj2 (Nat.eqb_neq _ _) Hzero).
      unfold py_div. by rewrite (proj2 (Nat.eqb_neq _ _) Htotal).
Qed.

Example classify_with_keywords_examples :
  _classify_with_keywords "Deploy VM with Terraform"
    = Return {| intent := INFRASTRUCTURE; confidence := 2 # 2;
                reasoning := JStr "Keyword match: INFRASTRUCTURE";
                method := "keywords" |}
  /\ _classify_with_keywords "cisco incident"
    = Return {| intent := NETWORK_DEVICE; confidence := 1 # 2;
                reasoning := JStr "Keyword match: NETWORK_DEVICE";
                method := "keywords" |}
  /\ _classify_with_keywords "good morning"
    = Return {| intent := OTHER; confidence := 3 # 10;
                reasoning := JStr "Keyword match: OTHER";
                method := "keywords" |}.
Proof. by vm_compute. Qed.

(** *** [classify] never raises *)

Lemma classify_with_keywords_returns user_query :
  exists r, _classify_with_keywords user_query = Return r
            /\ method r = "keywords".
Proof.
  unfold _classify_with_keywords.
  set (s := count_patterns (lower user_query) patterns initial_scores).
  destruct (py_max_all_intents s) as (b & -> & _ & _).
  cbn [mbind outcome_bind].
  destruct (s b =? 0) eqn:Hzero; [by eexists|].
  apply Nat.eqb_neq in Hzero. unfold py_div.
  pose proof (sum_scores_ge s b) as Hge.
  rewrite (proj2 (Nat.eqb_neq (sum_scores s) 0)) by lia.
  by eexists.
Qed.


Section ClassifyFacts.

Variable json_loads : string -> outcome json.
Variable float_of_str : string -> option Q.






End ClassifyFacts.

(** *** Worked scenarios *)

(** A backend that is down, and one that answers with a fixed document. *)
Definition unreachable_client : llm_client :=
  fun _ _ => Raise (OtherException "connection refused").

Definition answering_client : llm_client :=
  fun _ _ => Return "{...}".

Definition fixed_json_loads (text : string) : outcome json :=
  Return (JObj [("intent", JStr "search"); ("confidence", JNum (9 # 10));
                ("reasoning", JStr "asks for a lookup")]).

Definition no_float_of_str (s : string) : option Q := None.


(** With a backend that answers, the same classifier returns the model's
    verdict tagged "llm"; a label outside the enumeration becomes OTHER. *)
Example classify_with_llm_examples :
  (classify fixed_json_loads no_float_of_str
     {| client := Some answering_client; model := Some "gpt-4" |}
     None "find the latest firmware").1
  = Return {| intent := SEARCH; confidence := 9 # 10;
              reasoning := JStr "asks for a lookup"; method := "llm" |}
  /\ parse_llm_response
       (fun _ => Return (JObj [("intent", JStr "billing")]))
       no_float_of_str "{...}"
     = Return {| intent := OTHER; confidence := 1 # 2;
                 reasoning := JStr "LLM classification"; method := "llm" |}
  /\ _classify_with_llm (fun _ => Return (JArr [])) no_float_of_str
       answering_client None "configure vlan 10"
     = _classify_with_keywords "configure vlan 10".
Proof. by vm_compute. Qed.

End IntentClassifier.

(** ** [telemetry.py]: class [CommandTelemetry] *)

Module Telemetry.
Import PyStr.

(** [class ExecutionStatus(Enum)] *)
Inductive ExecutionStatus :=
| SUCCESS
| FAILURE
| TIMEOUT
| INVALID_COMMAND
| NO_DEVICE
| UNKNOWN.

#[export] Instance ExecutionStatus_eq_dec : EqDecision ExecutionStatus.
Proof. solve_decision. Defined.

(** [status.value] *)
Definition status_value (s : ExecutionStatus) : string :=
  match s with
  | SUCCESS => "success"
  | FAILURE => "failure"
  | TIMEOUT => "timeout"
  | INVALID_COMMAND => "invalid_command"
  | NO_DEVICE => "no_device"
  | UNKNOWN => "unknown"
  end.

(** A value of [self.device_metrics].  Timestamps are instants of the wall
    clock in microseconds ([datetime.now()]); the moving average is an exact
    rational. *)
Record dev_stats := {
  total : nat;
  success : nat;
  failure : nat;
  timeout : nat;
  avg_duration_ms : Q;
  last_execution : option Z;
  status_history : list (string * Z);
}.

(** A value of [self.command_metrics]. *)
Record cmd_stats := {
  cmd_total : nat;
  cmd_success : nat;
  cmd_failure : nat;
  devices_failed_on : gset string;
}.

Record CommandTelemetry := {
  retention_seconds : Z;
  device_metrics : gmap string dev_stats;
  command_metrics : gmap string cmd_stats;
}.

(** The factories of the two [defaultdict]s. *)
Definition new_dev_stats : dev_stats :=
  {| total := 0; success := 0; failure := 0; timeout := 0;
     avg_duration_ms := 0; last_execution := None; status_history := [] |}.

Definition new_cmd_stats : cmd_stats :=
  {| cmd_total := 0; cmd_success := 0; cmd_failure := 0;
     devices_failed_on := ∅ |}.

(** [CommandTelemetry(retention_seconds)] *)
Definition init (retention : Z) : CommandTelemetry :=
  {| retention_seconds := retention; device_metrics := ∅;
     command_metrics := ∅ |}.

(** [self.device_metrics[device]] and [self.command_metrics[command]] on a
    [defaultdict]. *)
Definition dev_stats_of (self : CommandTelemetry) (device : string) : dev_stats :=
  default new_dev_stats (device_metrics self !! device).

Definition cmd_stats_of (self : CommandTelemetry) (command : string) : cmd_stats :=
  default new_cmd_stats (command_metrics self !! command).

(** [self.alert_thresholds] *)
Definition failure_rate_threshold : Q := 3 # 10.
Definition consecutive_failures_threshold : nat := 5.

(** [l[-n:]] for [n > 0] *)
Definition last_n {A} (n : nat) (l : list A) : list A :=
  drop (length l - n) l.

(** The loop over [reversed(recent_history)]: count entries until the first
    "success". *)
Fixpoint count_streak (reversed_history : list (string * Z)) : nat :=
  match reversed_history with
  | [] => 0
  | (status, _) :: rest =>
      if bool_decide (status ≠ "success") then S (count_streak rest) else 0
  end.

(** [consecutive_fails] as [_check_alerts] computes it. *)
Definition consecutive_fails (history : list (string * Z)) : nat :=
  count_streak (reverse (last_n 10 history)).

(** Decimal rendering of a natural number: [str(n)]. *)
Definition nat_to_str (n : nat) : string :=
  NilEmpty.string_of_uint (Nat.to_uint n).

(** [', '.join(items)] *)
Fixpoint join_comma (items : list string) : string :=
  match items with
  | [] => ""
  | [x] => x
  | x :: rest => x +:+ ", " +:+ join_comma rest
  end.

Section Alerts.

(** [f"{failure / total:.1%}"], from the two counters. *)
Variable format_percent : nat -> nat -> string.
(** The order in which a [set] of strings is iterated. *)
Variable iter_set : gset string -> list string.

(** [failure / total > 0.3].  The comparison is exact: on counters below
    2^50 the rounded quotient exceeds the rounded constant exactly when the
    rational one does. *)
Definition failure_rate_exceeded (d : dev_stats) : bool :=
  negb (Qle_bool (Z.of_nat (failure d) # Pos.of_nat (total d))
                 failure_rate_threshold).

(** The three alert messages. *)
Definition high_failure_rate_message (device : string) (d : dev_stats) : string :=
  "HIGH FAILURE RATE on " +:+ device +:+ ": "
  +:+ format_percent (failure d) (total d)
  +:+ " (" +:+ nat_to_str (failure d) +:+ "/" +:+ nat_to_str (total d)
  +:+ " failed)".

Definition consecutive_failures_message (device : string) (consecutive : nat)
    : string :=
  "CONSECUTIVE FAILURES on " +:+ device +:+ ": " +:+ nat_to_str consecutive
  +:+ " in a row - " +:+ "possible code regression!".

Definition command_regression_message (command : string) (c : cmd_stats)
    : string :=
  "COMMAND REGRESSION: '" +:+ command +:+ "' failing on multiple devices ("
  +:+ join_comma (iter_set (devices_failed_on c)) +:+ ") - likely code issue".

(** [_check_alerts] *)
Definition _check_alerts (self : CommandTelemetry) (device command : string)
    : list string :=
  let dev_stats := dev_stats_of self device in
  let cmd_stats := cmd_stats_of self command in
  let alerts := [] in
  let alerts :=
    if (10 <=? total dev_stats) && failure_rate_exceeded dev_stats then
      alerts ++ [high_failure_rate_message device dev_stats]
    else alerts in
  let consecutive := consecutive_fails (status_history dev_stats) in
  let alerts :=
    if consecutive_failures_threshold <=? consecutive then
      alerts ++ [consecutive_failures_message device consecutive]
    else alerts in
  let alerts :=
    if 3 <=? size (devices_failed_on cmd_stats) then
      alerts ++ [command_regression_message command cmd_stats]
    else alerts in
  alerts.

(** The block "Update device metrics" of [record_execution]: counters,
    history entry, moving average, then pruning of the history. *)
Definition update_dev_stats (retention : Z) (d : dev_stats)
    (status : ExecutionStatus) (duration_ms : option Q) (now : Z) : dev_stats :=
  let history :=
    if decide (status = SUCCESS) then status_history d ++ [("success", now)]
    else status_history d ++ [(status_value status, now)] in
  let cutoff := (now - retention * 1000000)%Z in
  {| total := total d + 1;
     success := if decide (status = SUCCESS) then success d + 1 else success d;
     failure := if decide (status = SUCCESS) then failure d else failure d + 1;
     timeout := timeout d;
     avg_duration_ms :=
       match duration_ms with
       | Some ms => ((3 # 10) * ms + (1 - (3 # 10)) * avg_duration_ms d)%Q
       | None => avg_duration_ms d
       end;
     last_execution := Some now;
     status_history := filter (fun e => (cutoff < e.2)%Z) history |}.

(** The block "Update command metrics". *)
Definition update_cmd_stats (c : cmd_stats) (device : string)
    (status : ExecutionStatus) : cmd_stats :=
  {| cmd_total := cmd_total c + 1;
     cmd_success :=
       if decide (status = SUCCESS) then cmd_success c + 1 else cmd_success c;
     cmd_failure :=
       if decide (status = SUCCESS) then cmd_failure c else cmd_failure c + 1;
     devices_failed_on :=
       if decide (status = SUCCESS) then devices_failed_on c
       else {[device]} ∪ devices_failed_on c |}.

(** [record_execution], with the instant [now] that [datetime.now()] reads.
    The arguments [error_msg] and [output] are never used by the method. *)
Definition record_execution (self : CommandTelemetry) (device command : string)
    (status : ExecutionStatus) (duration_ms : option Q) (now : Z)
    : option (list string) * CommandTelemetry :=
  let d' :=
    update_dev_stats (retention_seconds self) (dev_stats_of self device)
      status duration_ms now in
  let c' := update_cmd_stats (cmd_stats_of self command) device status in
  let self' :=
    {| retention_seconds := retention_seconds self;
       device_metrics := <[device := d']> (device_metrics self);
       command_metrics := <[command := c']> (command_metrics self) |} in
  let alerts := _check_alerts self' device command in
  (match alerts with [] => None | _ => Some alerts end, self').

(** One call of [record_execution]. *)
Record call := {
  call_device : string;
  call_command : string;
  call_status : ExecutionStatus;
  call_duration_ms : option Q;
  call_now : Z;
}.

Definition record_call (self : CommandTelemetry) (c : call)
    : option (list string) * CommandTelemetry :=
  record_execution self (call_device c) (call_command c) (call_status c)
    (call_duration_ms c) (call_now c).

(** The state after a sequence of calls. *)
Definition run (self : CommandTelemetry) (calls : list call) : CommandTelemetry :=
  foldl (fun st c => (record_call st c).2) self calls.

End Alerts.

(** The three kinds of alert, told apart by how the message starts. *)
Definition is_high_failure_rate (alert : string) : bool :=
  String.prefix "HIGH FAILURE RATE on " alert.
Definition is_consecutive_failures (alert : string) : bool :=
  String.prefix "CONSECUTIVE FAILURES on " alert.
Definition is_command_regression (alert : string) : bool :=
  String.prefix "COMMAND REGRESSION: '" alert.

(** What a caller sees in the value [record_execution] returns. *)
Definition returned_alerts (r : option (list string)) : list string :=
  default [] r.

(** One rendering of a rate as a percentage with one decimal, and one
    iteration order of a set; the examples below use them.  No statement
    depends on either choice. *)
Definition decimal_percent (failure total : nat) : string :=
  let tenths := (1000 * failure + total / 2) / total in
  nat_to_str (tenths / 10) +:+ "." +:+ nat_to_str (tenths mod 10) +:+ "%".

Definition sorted_iter (s : gset string) : list string := elements s.


(** *** Facts about [record_execution] *)

Section TelemetryFacts.

Variable format_percent : nat -> nat -> string.
Variable iter_set : gset string -> list string.

Local Abbreviation check := (_check_alerts format_percent iter_set).
Local Abbreviation record := (record_execution format_percent iter_set).
Local Abbreviation record1 := (record_call format_percent iter_set).
Local Abbreviation run_calls := (run format_percent iter_set).

(** The alerts of [_check_alerts], rule by rule. *)
Lemma check_alerts_parts self device command :
  check self device command =
    (if (10 <=? total (dev_stats_of self device))
        && failure_rate_exceeded (dev_stats_of self device)
     then [high_failure_rate_message format_percent device
             (dev_stats_of self device)]
     else [])
    ++ (if consecutive_failures_threshold
           <=? consecutive_fails (status_history (dev_stats_of self device))
        then [consecutive_failures_message device
                (consecutive_fails (status_history (dev_stats_of self device)))]
        else [])
    ++ (if 3 <=? size (devices_failed_on (cmd_stats_of self command))
        then [command_regression_message iter_set command
                (cmd_stats_of self command)]
        else []).
Proof.
  unfold _check_alerts. cbn zeta.
  destruct (_ && _), (_ <=? consecutive_fails _), (3 <=? _); reflexivity.
Qed.

(** The three messages start differently, whatever the names in them. *)
Lemma alert_kinds device command d n c :
  let h := high_failure_rate_message format_percent device d in
  let f := consecutive_failures_message device n in
  let r := command_regression_message iter_set command c in
  (is_high_failure_rate h = true /\ is_consecutive_failures h = false
   /\ is_command_regression h = false)
  /\ (is_high_failure_rate f = false /\ is_consecutive_failures f = true
      /\ is_command_regression f = false)
  /\ (is_high_failure_rate r = false /\ is_consecutive_failures r = false
      /\ is_command_regression r = true).
Proof. cbn zeta. repeat split; (reflexivity || apply prefix_app). Qed.

Lemma in_optional_alert (c : bool) (m a : string) :
  a ∈ (if c then [m] else []) <-> c = true /\ a = m.
Proof.
  destruct c.
  - rewrite list_elem_of_singleton. split; [by intros -> | by intros [_ ->]].
  - rewrite elem_of_nil. split; [done | by intros [? _]].
Qed.

Lemma high_failure_rate_alert_iff self device command :
  (exists a, a ∈ check self device command /\ is_high_failure_rate a = true)
  <-> (10 <=? total (dev_stats_of self device))
      && failure_rate_exceeded (dev_stats_of self device) = true.
Proof.
  rewrite check_alerts_parts. split.
  - intros (a & Hin & Ha). rewrite !elem_of_app, !in_optional_alert in Hin.
    destruct Hin as [[? _]|[[_ ->]|[_ ->]]]; [done|..]; by vm_compute in Ha.
  - intros ->. eexists. split; [apply elem_of_app; left; apply list_elem_of_here|].
    apply prefix_app.
Qed.

Lemma consecutive_failures_alert_iff self device command :
  (exists a, a ∈ check self device command /\ is_consecutive_failures a = true)
  <-> (consecutive_failures_threshold
       <=? consecutive_fails (status_history (dev_stats_of self device))) = true.
Proof.
  rewrite check_alerts_parts. split.
  - intros (a & Hin & Ha). rewrite !elem_of_app, !in_optional_alert in Hin.
    destruct Hin as [[_ ->]|[[? _]|[_ ->]]]; [|done|]; by vm_compute in Ha.
  - intros ->. eexists. split.
    + apply elem_of_app; right; apply elem_of_app; left; apply list_elem_of_here.
    + apply prefix_app.
Qed.

Lemma command_regression_alert_iff self device command :
  (exists a, a ∈ check self device command /\ is_command_regression a = true)
  <-> (3 <=? size (devices_failed_on (cmd_stats_of self command))) = true.
Proof.
  rewrite check_alerts_parts. split.
  - intros (a & Hin & Ha). rewrite !elem_of_app, !in_optional_alert in Hin.
    destruct Hin as [[_ ->]|[[_ ->]|[? _]]]; [| |done]; by vm_compute in Ha.
  - intros ->. eexists. split.
    + apply elem_of_app; right; apply elem_of_app; right; apply list_elem_of_here.
    + apply prefix_app.
Qed.

(** [failure / total > 0.3], on the counters. *)
Lemma failure_rate_exceeded_spec d :
  0 < total d ->
  failure_rate_exceeded d = true <-> 3 * total d < 10 * failure d.
Proof.
  intros Hpos. unfold failure_rate_exceeded, failure_rate_threshold.
  rewrite negb_true_iff, <- not_true_iff_false, Qle_bool_iff.
  unfold Qle. cbn [Qnum Qden].
  rewrite <- (positive_nat_Z (Pos.of_nat (total d))), Nat2Pos.id by lia. lia.
Qed.

(** What a call returns is what [_check_alerts] finds in the new state. *)
Lemma returned_alerts_record self device command status duration_ms now :
  returned_alerts (record self device command status duration_ms now).1
  = check (record self device command status duration_ms now).2 device command.
Proof.
  unfold record_execution. cbn [fst snd].
  by destruct (check _ device command).
Qed.

(** The statistics of the recorded device after a call. *)
Lemma dev_stats_of_record_eq self device command status duration_ms now :
  dev_stats_of (record self device command status duration_ms now).2 device
  = update_dev_stats (retention_seconds self) (dev_stats_of self device)
      status duration_ms now.
Proof.
  unfold record_execution. cbn [snd]. unfold dev_stats_of at 1.
  cbn [device_metrics]. by rewrite lookup_insert_eq.
Qed.

Lemma dev_stats_of_record self device command status duration_ms now :
  let d := dev_stats_of self device in
  let d' :=
    dev_stats_of (record self device command status duration_ms now).2 device in
  total d' = total d + 1
  /\ success d' = (if decide (status = SUCCESS) then success d + 1 else success d)
  /\ failure d' = (if decide (status = SUCCESS) then failure d else failure d + 1)
  /\ timeout d' = timeout d
  /\ status_history d'
     = filter (fun e => (now - retention_seconds self * 1000000 < e.2)%Z)
              (status_history d ++ [(status_value status, now)]).
Proof.
  cbn zeta. rewrite dev_stats_of_record_eq. unfold update_dev_stats.
  cbn [total success failure timeout status_history].
  repeat split. by destruct status.
Qed.

(** The statistics of every other device are untouched. *)
Lemma dev_stats_of_record_other self device command status duration_ms now other :
  other ≠ device ->
  dev_stats_of (record self device command status duration_ms now).2 other
  = dev_stats_of self other.
Proof.
  intros Hne. unfold record_execution. cbn [snd]. unfold dev_stats_of.
  cbn [device_metrics]. by rewrite lookup_insert_ne.
Qed.

(** The statistics of the recorded command after a call. *)
Lemma cmd_stats_of_record self device command status duration_ms now :
  devices_failed_on
    (cmd_stats_of (record self device command status duration_ms now).2 command)
  = if decide (status = SUCCESS)
    then devices_failed_on (cmd_stats_of self command)
    else {[device]} ∪ devices_failed_on (cmd_stats_of self command).
Proof.
  unfold record_execution. cbn [snd]. unfold cmd_stats_of at 1.
  cbn [command_metrics]. by rewrite lookup_insert_eq.
Qed.

Lemma cmd_stats_of_record_other self device command status duration_ms now other :
  other ≠ command ->
  cmd_stats_of (record self device command status duration_ms now).2 other
  = cmd_stats_of self other.
Proof.
  intros Hne. unfold record_execution. cbn [snd]. unfold cmd_stats_of.
  cbn [command_metrics]. by rewrite lookup_insert_ne.
Qed.

Lemma retention_record self device command status duration_ms now :
  retention_seconds (record self device command status duration_ms now).2
  = retention_seconds self.
Proof. reflexivity. Qed.

Lemma run_snoc self calls c :
  run_calls self (calls ++ [c]) = (record1 (run_calls self calls) c).2.
Proof. unfold run. by rewrite foldl_snoc. Qed.

Lemma retention_run calls : forall self,
  retention_seconds (run_calls self calls) = retention_seconds self.
Proof.
  induction calls as [|c calls IH]; intros self; [done|].
  unfold run in *. cbn [foldl]. by rewrite IH.
Qed.

(** *** Counters *)

(** The counters of a device after any sequence of calls, relative to the
    state the sequence starts from. *)
Lemma run_counters calls : forall self device,
  let d0 := dev_stats_of self device in
  let d := dev_stats_of (run_calls self calls) device in
  let mine := filter (fun c => call_device c = device) calls in
  total d = total d0 + length mine
  /\ success d
     = success d0 + length (filter (fun c => call_status c = SUCCESS) mine)
  /\ failure d
     = failure d0 + length (filter (fun c => call_status c ≠ SUCCESS) mine)
  /\ timeout d = timeout d0.
Proof.
  induction calls as [|c calls IH]; intros self device.
  - cbn. repeat split; lia.
  - specialize (IH (record1 self c).2 device). cbn zeta in IH.
    change (run_calls self (c :: calls))
      with (run_calls (record1 self c).2 calls).
    destruct IH as (Ht & Hs & Hf & Hto). cbn zeta.
    rewrite Ht, Hs, Hf, Hto. unfold record_call.
    destruct (decide (call_device c = device)) as [<-|Hne].
    + rewrite filter_cons_True by done.
      destruct (dev_stats_of_record self (call_device c) (call_command c)
                  (call_status c) (call_duration_ms c) (call_now c))
        as (-> & -> & -> & -> & _).
      destruct (decide (call_status c = SUCCESS)) as [Hst|Hst].
      * rewrite (filter_cons_True (fun c => call_status c = SUCCESS)) by done.
        rewrite (filter_cons_False (fun c => call_status c ≠ SUCCESS))
          by (intros ?; done).
        cbn [length]. repeat split; lia.
      * rewrite (filter_cons_False (fun c => call_status c = SUCCESS)) by done.
        rewrite (filter_cons_True (fun c => call_status c ≠ SUCCESS)) by done.
        cbn [length]. repeat split; lia.
    + rewrite filter_cons_False by done.
      by rewrite dev_stats_of_record_other.
Qed.

Lemma filter_all {A} (P : A -> Prop) `{!forall x, Decision (P x)} (l : list A) :
  Forall P l -> filter P l = l.
Proof.
  induction 1 as [|x l Hx _ IH]; [done|].
  by rewrite filter_cons_True, IH.
Qed.

Lemma filter_split_length {A} (P : A -> Prop) `{!forall x, Decision (P x)}
    (l : list A) :
  length (filter P l) + length (filter (fun x => ¬ P x) l) = length l.
Proof.
  induction l as [|x l IH]; [done|].
  destruct (decide (P x)).
  - rewrite filter_cons_True, (filter_cons_False (fun x => ¬ P x)) by auto.
    cbn [length]. lia.
  - rewrite filter_cons_False, (filter_cons_True (fun x => ¬ P x)) by auto.
    cbn [length]. lia.
Qed.

(** C5 (the part the code satisfies, and where it stops): after any sequence
    of calls on a fresh telemetry, the counters of a device are
    [total = N] and [success + failure = N], with [N] the number of calls
    for that device, every non-success status counting as a failure; the
    [timeout] counter is never written and stays 0. *)
Theorem device_counters_after_calls
    (retention : Z) (calls : list call) (device : string) :
  let d := dev_stats_of (run_calls (init retention) calls) device in
  let mine := filter (fun c => call_device c = device) calls in
  total d = length mine
  /\ success d + failure d = length mine
  /\ failure d = length (filter (fun c => call_status c ≠ SUCCESS) mine)
  /\ timeout d = 0.
Proof.
  destruct (run_counters calls (init retention) device) as (Ht & Hs & Hf & Hto).
  cbn zeta. rewrite Ht, Hs, Hf, Hto.
  pose proof (filter_split_length (fun c => call_status c = SUCCESS)
                (filter (fun c => call_device c = device) calls)) as Hsplit.
  cbn beta in Hsplit.
  change (dev_stats_of (init retention) device) with new_dev_stats.
  cbn [total success failure timeout new_dev_stats].
  repeat split; lia.
Qed.

(** *** High failure rate *)

Lemma high_failure_rate_in_message a :
  is_high_failure_rate a = true -> str_in "HIGH FAILURE RATE" a = true.
Proof.
  intros [r ->]%prefix_inv. apply str_in_spec. by exists "", (" on " +:+ r).
Qed.


Lemma command_regression_in_message a :
  is_command_regression a = true -> str_in "COMMAND REGRESSION" a = true.
Proof.
  intros [r ->]%prefix_inv. apply str_in_spec. by exists "", (": '" +:+ r).
Qed.

(** C6: the returned alerts contain a high-failure-rate alert exactly when
    the device has at least 10 recorded executions and failure/total exceeds
    3/10; and on a fresh telemetry the tenth of ten FAILURE executions of
    "show version" on "R1" returns one, which contains "HIGH FAILURE RATE". *)
Theorem high_failure_rate_alert_rule :
  (forall self device command status duration_ms now,
     let r := record self device command status duration_ms now in
     let d := dev_stats_of r.2 device in
     (exists a, a ∈ returned_alerts r.1 /\ is_high_failure_rate a = true)
     <-> 10 <= total d /\ 3 * total d < 10 * failure d)
  /\ (forall retention prior last,
        length prior = 9 ->
        Forall (fun c => call_device c = "R1"
                         /\ call_command c = "show version"
                         /\ call_status c = FAILURE) (prior ++ [last]) ->
        exists a,
          a ∈ returned_alerts (record1 (run_calls (init retention) prior) last).1
          /\ is_high_failure_rate a = true
          /\ str_in "HIGH FAILURE RATE" a = true).
Proof.
  assert (forall self device command status duration_ms now,
    (exists a, a ∈ returned_alerts
                     (record self device command status duration_ms now).1
               /\ is_high_failure_rate a = true)
    <-> 10 <= total (dev_stats_of
                       (record self device command status duration_ms now).2
                       device)
        /\ 3 * total (dev_stats_of
                        (record self device command status duration_ms now).2
                        device)
           < 10 * failure (dev_stats_of
                        (record self device command status duration_ms now).2
                        device)) as Hrule.
  { intros. rewrite returned_alerts_record, high_failure_rate_alert_iff.
    rewrite andb_true_iff, Nat.leb_le.
    split; intros [H10 Hr]; (split; [done|]);
      by apply failure_rate_exceeded_spec; [lia|]. }
  split; [exact Hrule|].
  intros retention prior last Hlen Hall.
  pose proof (proj1 (Forall_app _ _ _) Hall) as [_ Hlast].
  apply Forall_singleton in Hlast as (Hdev & Hcmd & _).
  destruct (device_counters_after_calls retention (prior ++ [last]) "R1")
    as (Ht & _ & Hf & _).
  rewrite run_snoc in Ht, Hf.
  rewrite (filter_all (fun c => call_device c = "R1")) in Ht, Hf
    by (eapply Forall_impl; [exact Hall | by intros c (? & _)]).
  rewrite (filter_all (fun c => call_status c ≠ SUCCESS)) in Hf
    by (eapply Forall_impl; [exact Hall | by intros c (_ & _ & ->)]).
  rewrite length_app, Hlen in Ht, Hf. cbn [length] in Ht, Hf.
  unfold record_call in *. rewrite Hdev, Hcmd in *.
  match goal with
  | |- exists a, a ∈ ?alerts /\ _ =>
      assert (exists a, a ∈ alerts /\ is_high_failure_rate a = true)
        as (a & Hin & Ha) by (apply Hrule; rewrite Ht, Hf; split; lia)
  end.
  exists a. split; [exact Hin|]. split; [exact Ha|].
  by apply high_failure_rate_in_message.
Qed.

(** *** Consecutive failures *)

Lemma count_streak_le l : count_streak l <= length l.
Proof.
  induction l as [|[s t] l IH]; simpl; [lia|].
  case_bool_decide; lia.
Qed.

Lemma count_streak_take n l :
  count_streak (take n l) = Nat.min n (count_streak l).
Proof.
  revert n. induction l as [|[s t] l IH]; intros [|n]; simpl; try done.
  case_bool_decide; [by rewrite IH | done].
Qed.


(** The scan looks at the last ten entries only, newest first. *)
Lemma consecutive_fails_min h :
  consecutive_fails h = count_streak (take 10 (reverse h))
  /\ consecutive_fails h = Nat.min 10 (count_streak (reverse h)).
Proof.
  unfold consecutive_fails, last_n. rewrite reverse_drop.
  pose proof (count_streak_le (reverse h)) as Hle.
  rewrite length_reverse in Hle. rewrite !count_streak_take. lia.
Qed.

Lemma status_value_not_success status :
  status ≠ SUCCESS -> status_value status ≠ "success".
Proof. by destruct status. Qed.

(** The history entry a call appends. *)
Definition history_entry (c : call) : string * Z :=
  (status_value (call_status c), call_now c).




(** *** Command regression *)

(** The failed-on set of a command after a sequence of calls: what it held
    before, and every device on which a call of that command did not
    succeed. *)
Lemma run_failed_on calls : forall self command device,
  device ∈ devices_failed_on (cmd_stats_of (run_calls self calls) command)
  <-> device ∈ devices_failed_on (cmd_stats_of self command)
      \/ (exists c, c ∈ calls /\ call_command c = command
                    /\ call_device c = device /\ call_status c ≠ SUCCESS).
Proof.
  induction calls as [|c calls IH]; intros self command device.
  - cbn. split; [by left|]. intros [?|(c & Hc & _)]; [done|].
    by apply elem_of_nil in Hc.
  - change (run_calls self (c :: calls))
      with (run_calls (record1 self c).2 calls).
    rewrite IH. unfold record_call.
    destruct (decide (call_command c = command)) as [<-|Hne].
    + rewrite cmd_stats_of_record.
      destruct (decide (call_status c = SUCCESS)) as [Hs|Hs].
      * split; (intros [?|(c' & Hin & Hc')]; [by left|right]).
        -- exists c'. split; [by apply list_elem_of_further | done].
        -- apply elem_of_cons in Hin as [->|Hin]; [by destruct Hc' as (_ & _ & ?)|].
           eauto.
      * rewrite elem_of_union, elem_of_singleton. split.
        -- intros [[->|?]|(c' & Hin & Hc')]; [right|by left|right].
           ++ exists c. split; [apply list_elem_of_here | done].
           ++ exists c'. split; [by apply list_elem_of_further | done].
        -- intros [?|(c' & Hin & Hc')]; [by left; right|].
           apply elem_of_cons in Hin as [->|Hin].
           ++ left; left. by destruct Hc' as (_ & ? & _).
           ++ right. eauto.
    + rewrite cmd_stats_of_record_other by done.
      split; (intros [?|(c' & Hin & Hc')]; [by left|right]).
      * exists c'. split; [by apply list_elem_of_further | done].
      * apply elem_of_cons in Hin as [->|Hin]; [by destruct Hc' as (? & _)|].
        eauto.
Qed.

Lemma size_three (d1 d2 d3 : string) (X : gset string) :
  d1 ≠ d2 -> d1 ≠ d3 -> d2 ≠ d3 ->
  3 <= size ({[d3]} ∪ ({[d2]} ∪ ({[d1]} ∪ X))).
Proof.
  intros H12 H13 H23.
  assert (size ({[d1]} ∪ ({[d2]} ∪ {[d3]}) : gset string) = 3) as <-.
  { rewrite size_union.
    - rewrite size_union by by apply disjoint_singleton_l, not_elem_of_singleton.
      by rewrite !size_singleton.
    - apply disjoint_singleton_l.
      rewrite elem_of_union, !elem_of_singleton. by intros [?|?]. }
  apply subseteq_size. intros x.
  rewrite !elem_of_union, !elem_of_singleton. tauto.
Qed.

(** C8: the returned alerts contain a command-regression alert exactly when
    the set of devices the command has failed on holds at least three
    devices; on a fresh telemetry that set is exactly the set of devices with
    a non-successful execution of the command among all calls so far
    (nothing is pruned, a device counts once); and a failure of one command
    on each of three distinct devices makes the third call return the alert,
    in particular "ping 8.8.8.8" on "R1", "R2", "R3". *)
Theorem command_regression_alert_rule :
  (forall self device command status duration_ms now,
     let r := record self device command status duration_ms now in
     (exists a, a ∈ returned_alerts r.1 /\ is_command_regression a = true)
     <-> 3 <= size (devices_failed_on (cmd_stats_of r.2 command)))
  /\ (forall retention calls command device,
        device ∈ devices_failed_on
                   (cmd_stats_of (run_calls (init retention) calls) command)
        <-> exists c, c ∈ calls /\ call_command c = command
                      /\ call_device c = device /\ call_status c ≠ SUCCESS)
  /\ (forall self command d1 d2 d3 ms1 ms2 ms3 t1 t2 t3,
        d1 ≠ d2 -> d1 ≠ d3 -> d2 ≠ d3 ->
        let s1 := (record self d1 command FAILURE ms1 t1).2 in
        let s2 := (record s1 d2 command FAILURE ms2 t2).2 in
        exists a,
          a ∈ returned_alerts (record s2 d3 command FAILURE ms3 t3).1
          /\ is_command_regression a = true
          /\ str_in "COMMAND REGRESSION" a = true)
  /\ (forall self ms1 ms2 ms3 t1 t2 t3,
        let s1 := (record self "R1" "ping 8.8.8.8" FAILURE ms1 t1).2 in
        let s2 := (record s1 "R2" "ping 8.8.8.8" FAILURE ms2 t2).2 in
        exists a,
          a ∈ returned_alerts (record s2 "R3" "ping 8.8.8.8" FAILURE ms3 t3).1
          /\ is_command_regression a = true
          /\ str_in "COMMAND REGRESSION" a = true).
Proof.
  assert (forall self device command status duration_ms now,
    (exists a, a ∈ returned_alerts
                     (record self device command status duration_ms now).1
               /\ is_command_regression a = true)
    <-> 3 <= size (devices_failed_on
                     (cmd_stats_of
                        (record self device command status duration_ms now).2
                        command))) as Hrule.
  { intros. rewrite returned_alerts_record, command_regression_alert_iff.
    apply Nat.leb_le. }
  assert (forall self command d1 d2 d3 ms1 ms2 ms3 t1 t2 t3,
    d1 ≠ d2 -> d1 ≠ d3 -> d2 ≠ d3 ->
    exists a,
      a ∈ returned_alerts
            (record (record (record self d1 command FAILURE ms1 t1).2
                       d2 command FAILURE ms2 t2).2
               d3 command FAILURE ms3 t3).1
      /\ is_command_regression a = true
      /\ str_in "COMMAND REGRESSION" a = true) as Hthree.
  { intros self command d1 d2 d3 ms1 ms2 ms3 t1 t2 t3 H12 H13 H23.
    match goal with
    | |- exists a, a ∈ ?alerts /\ _ =>
        assert (exists a, a ∈ alerts /\ is_command_regression a = true)
          as (a & Hin & Ha)
    end.
    { apply Hrule. rewrite !cmd_stats_of_record.
      rewrite !decide_False by done. by apply size_three. }
    exists a. split; [exact Hin|]. split; [exact Ha|].
    by apply command_regression_in_message. }
  split; [exact Hrule|]. split; [|split].
  - intros retention calls command device. rewrite run_failed_on.
    split; [|by right]. intros [Hin|?]; [|done].
    by apply not_elem_of_empty in Hin.
  - intros. cbn zeta. by apply Hthree.
  - intros. cbn zeta. by apply Hthree.
Qed.

End TelemetryFacts.

(** *** Worked scenarios *)

Definition failure_call (device command : string) (now : Z) : call :=
  {| call_device := device; call_command := command; call_status := FAILURE;
     call_duration_ms := None; call_now := now |}.

(** C5, failing input: a TIMEOUT execution is counted as a failure and
    recorded in the history, but the [timeout] counter of the device is left
    at 0. *)
Lemma timeout_status_not_counted :
  dev_stats_of
    (record_execution decimal_percent sorted_iter (init 3600)
       "R1" "show version" TIMEOUT None 0).2 "R1"
  = {| total := 1; success := 0; failure := 1; timeout := 0;
       avg_duration_ms := 0; last_execution := Some 0%Z;
       status_history := [("timeout", 0%Z)] |}.
Proof. by vm_compute. Qed.

Lemma high_failure_rate_alert_witness :
  length (failure_call "R1" "show version" <$> [0; 1; 2; 3; 4; 5; 6; 7; 8]%Z) = 9
  /\ exists a,
       a ∈ returned_alerts
             (record_call decimal_percent sorted_iter
                (run decimal_percent sorted_iter (init 3600)
                   (failure_call "R1" "show version"
                      <$> [0; 1; 2; 3; 4; 5; 6; 7; 8]%Z))
                (failure_call "R1" "show version" 9)).1
       /\ is_high_failure_rate a = true
       /\ str_in "HIGH FAILURE RATE" a = true.
Proof.
  split; [reflexivity|].
  apply (proj2 (high_failure_rate_alert_rule decimal_percent sorted_iter));
    [reflexivity|].
  repeat (apply Forall_cons; split; [by repeat split|]). apply Forall_nil_2.
Defined.

Example ten_failures_alerts :
  (record_call decimal_percent sorted_iter
     (run decimal_percent sorted_iter (init 3600)
        (failure_call "R1" "show version" <$> [0; 1; 2; 3; 4; 5; 6; 7; 8]%Z))
     (failure_call "R1" "show version" 9)).1
  = Some ["HIGH FAILURE RATE on R1: 100.0% (10/10 failed)";
          "CONSECUTIVE FAILURES on R1: 10 in a row - possible code regression!"].
Proof. by vm_compute. Qed.


(** A SUCCESS after four failures: the streak is back to 0 and nothing is
    returned. *)
Example success_resets_streak :
  (record_execution decimal_percent sorted_iter
     (run decimal_percent sorted_iter (init 3600)
        (failure_call "SW1" "show vlan" <$> [0; 1000000; 2000000; 3000000]%Z))
     "SW1" "show vlan" SUCCESS (Some (25 # 1)) 4000000).1 = None.
Proof. by vm_compute. Qed.

Example ping_regression :
  (record_call decimal_percent sorted_iter
     (run decimal_percent sorted_iter (init 3600)
        [failure_call "R1" "ping 8.8.8.8" 0; failure_call "R2" "ping 8.8.8.8" 1])
     (failure_call "R3" "ping 8.8.8.8" 2)).1
  = Some ["COMMAND REGRESSION: 'ping 8.8.8.8' failing on multiple devices "
          +:+ "(R3, R1, R2) - likely code issue"]
  /\ (record_call decimal_percent sorted_iter
        (run decimal_percent sorted_iter (init 3600)
           [failure_call "R1" "ping 8.8.8.8" 0;
            failure_call "R1" "ping 8.8.8.8" 1])
        (failure_call "R2" "ping 8.8.8.8" 2)).1 = None.
Proof. by vm_compute. Qed.

End Telemetry.

(** ** [device_registry.py]: loading, indexes and the remaining lookups *)

Module RegistryOps.
Import PyStr DeviceRegistry.

(** [c.isspace()] on the ASCII range: tab to carriage return, the four
    separators 28 to 31, and the space. *)
Definition is_space (c : ascii) : bool :=
  let n := nat_of_ascii c in
  ((9 <=? n) && (n <=? 13)) || ((28 <=? n) && (n <=? 32)).

(** [s.lstrip()], [s.rstrip()] and [s.strip()] *)
Fixpoint lstrip (s : string) : string :=
  match s with
  | EmptyString => EmptyString
  | String c s' => if is_space c then lstrip s' else s
  end.

Fixpoint rstrip (s : string) : string :=
  match s with
  | EmptyString => EmptyString
  | String c s' =>
      match rstrip s' with
      | EmptyString => if is_space c then EmptyString else String c EmptyString
      | r => String c r
      end
  end.

Definition strip (s : string) : string := rstrip (lstrip s).

(** The parsed vendor tag file, as [_load_vendor_stack_map] walks it: the
    [stacks] mapping in document order, each stack with its [vendors] list
    (empty when the stack's value is not a mapping or has no such key).
    [None] stands for every way the load fails: no path, no file, or an
    exception while reading. *)
Definition vendor_tags := option (list (string * list string)).

(** One iteration of the inner loop:
    [vendor_key = str(vendor).strip().lower()], stored when non-empty. *)
Definition add_stack_vendor (stack_name : string) (m : gmap string string)
    (vendor : string) : gmap string string :=
  let vendor_key := lower (strip vendor) in
  if truthy vendor_key then <[vendor_key := stack_name]> m else m.

(** [_load_vendor_stack_map] *)
Definition _load_vendor_stack_map (config : vendor_tags) : gmap string string :=
  match config with
  | None => default_map
  | Some stacks =>
      foldl (fun m entry => foldl (add_stack_vendor entry.1) m entry.2)
            default_map stacks
  end.

(** What [load_devices] finds at [testbed_path].  An entry of the [devices]
    section carries [None] when [register_device] raises on it (its value is
    not a mapping, or its platform or OS is not a string). *)
Inductive testbed_file :=
| FileNotFound
| LoadError
| NoDevices
| DevicesSection (items : list (string * option device_config)).

(** The loop of [load_devices] inside its [try]: the first entry that raises
    ends the loop, and what was registered before it stays. *)
Fixpoint load_items (self : registry)
    (items : list (string * option device_config)) : registry :=
  match items with
  | [] => self
  | (device_name, Some c) :: rest =>
      load_items (register_device self device_name c) rest
  | (_, None) :: _ => self
  end.

(** [DeviceRegistry.__init__] *)
Definition DeviceRegistry_init (tags : vendor_tags) (file : testbed_file)
    : registry :=
  let self := empty_registry (_load_vendor_stack_map tags) in
  match file with
  | DevicesSection items => load_items self items
  | FileNotFound | LoadError | NoDevices => self
  end.

(** [get_devices_by_vendor] *)
Definition get_devices_by_vendor (self : registry) (vendor : string)
    : list string :=
  default [] (PyDict.get (lower vendor) (vendor_to_devices self)).

(** [get_device_info] *)
Definition get_device_info (self : registry) (device_name : string)
    : option device :=
  PyDict.get device_name (devices self).

(** [is_vendor_request] *)
Definition is_vendor_request (self : registry) (mentioned_devices : list string)
    (vendor : string) : bool :=
  match mentioned_devices with
  | [] => false
  | _ =>
      let vendor_devices := get_devices_by_vendor self vendor in
      forallb (fun dev => bool_decide (dev ∈ vendor_devices)) mentioned_devices
  end.

(** [should_skip_vendor] *)
Definition should_skip_vendor (self : registry) (mentioned_devices : list string)
    (vendor : string) : bool :=
  match mentioned_devices with
  | [] => false
  | _ =>
      let user_devices_vendors := mentioned_vendors self mentioned_devices in
      negb (bool_decide (vendor ∈ user_devices_vendors))
  end.

(** The vendor [register_device] detects for a testbed entry, the platform
    it indexes it under, and the record it stores. *)
Definition entry_platform (c : device_config) : string :=
  lower (default "unknown" (cfg_platform c)).

Definition entry_vendor (device_name : string) (c : device_config) : string :=
  _detect_vendor (entry_platform c) (lower (default "unknown" (cfg_os c)))
    device_name.

Definition stored_device (device_name : string) (c : device_config) : device :=
  {| dev_name := device_name;
     dev_vendor := entry_vendor device_name c;
     dev_platform := entry_platform c;
     dev_os := lower (default "unknown" (cfg_os c));
     dev_type := default "unknown" (cfg_type c);
     dev_alias := default "" (cfg_alias c);
     dev_ip := default "unknown" (cfg_ip c) |}.

(** *** Indexes built by [load_devices] *)

(** The entries of a [devices] section that are registered: those before
    the first one that raises. *)
Fixpoint registered_entries (items : list (string * option device_config))
    : list (string * device_config) :=
  match items with
  | (device_name, Some c) :: rest => (device_name, c) :: registered_entries rest
  | _ => []
  end.

Lemma load_items_registered items : forall self,
  load_items self items = load_devices self (registered_entries items).
Proof.
  induction items as [|[n [c|]] items IH]; intros self; [done| |done].
  simpl. apply IH.
Qed.

Lemma load_devices_cons self n c testbed :
  load_devices self ((n, c) :: testbed)
  = load_devices (register_device self n c) testbed.
Proof. reflexivity. Qed.

Lemma load_vendor_index testbed : forall self v,
  default [] (PyDict.get v (vendor_to_devices (load_devices self testbed)))
  = default [] (PyDict.get v (vendor_to_devices self))
    ++ (filter (fun it => entry_vendor it.1 it.2 = v) testbed).*1.
Proof.
  induction testbed as [|[n c] testbed IH]; intros self v.
  - by rewrite app_nil_r.
  - rewrite load_devices_cons, IH. cbn [register_device vendor_to_devices].
    fold (entry_vendor n c).
    destruct (decide (entry_vendor n c = v)) as [<-|Hne].
    + rewrite filter_cons_True by done. rewrite PyDict.get_set_eq. cbn.
      by rewrite <- app_assoc.
    + rewrite filter_cons_False by done. by rewrite PyDict.get_set_ne.
Qed.

Lemma load_platform_index testbed : forall self p,
  PyDict.get p (platform_to_vendor (load_devices self testbed))
  = match PyDict.get p (platform_to_vendor self) with
    | Some v => Some v
    | None =>
        (fun it => entry_vendor it.1 it.2)
          <$> head (filter (fun it => entry_platform it.2 = p) testbed)
    end.
Proof.
  induction testbed as [|[n c] testbed IH]; intros self p.
  - cbn. by destruct (PyDict.get p _).
  - rewrite load_devices_cons, IH. cbn [register_device platform_to_vendor].
    fold (entry_platform c). fold (entry_vendor n c). unfold PyDict.mem.
    destruct (decide (entry_platform c = p)) as [<-|Hne].
    + rewrite filter_cons_True by done.
      destruct (PyDict.get (entry_platform c) (platform_to_vendor self)) eqn:E.
      * by rewrite E.
      * by rewrite PyDict.get_set_eq.
    + rewrite filter_cons_False by done.
      destruct (PyDict.get (entry_platform c) (platform_to_vendor self));
        [done|]. by rewrite PyDict.get_set_ne.
Qed.

Lemma load_devices_lookup testbed : forall self n,
  PyDict.get n (devices (load_devices self testbed))
  = match last (filter (fun it => it.1 = n) testbed) with
    | Some it => Some (stored_device it.1 it.2)
    | None => PyDict.get n (devices self)
    end.
Proof.
  induction testbed as [|[m c] testbed IH]; intros self n; [done|].
  rewrite load_devices_cons, IH. cbn [register_device devices].
  destruct (decide (m = n)) as [<-|Hne].
  - rewrite filter_cons_True by done. rewrite PyDict.get_set_eq.
    destruct (filter _ testbed) as [|it l] eqn:E; [done|].
    change (last ((m, c) :: it :: l)) with (last (it :: l)).
    destruct (last (it :: l)) eqn:EL; [done|]. by apply last_None in EL.
  - rewrite filter_cons_False by done. by rewrite PyDict.get_set_ne.
Qed.


Lemma init_is_load tags file :
  exists testbed,
    DeviceRegistry_init tags file
    = load_devices (empty_registry (_load_vendor_stack_map tags)) testbed.
Proof.
  destruct file as [| | |items]; try by exists [].
  exists (registered_entries items). apply load_items_registered.
Qed.

Lemma load_devices_stack_map testbed : forall self,
  vendor_stack_map (load_devices self testbed) = vendor_stack_map self.
Proof.
  induction testbed as [|[n c] testbed IH]; intros self; [done|].
  by rewrite load_devices_cons, IH.
Qed.

(** The entries [load_devices] registers from what it finds on disk. *)
Definition file_entries (file : testbed_file) : list (string * device_config) :=
  match file with
  | DevicesSection items => registered_entries items
  | FileNotFound | LoadError | NoDevices => []
  end.

Lemma init_load tags file :
  DeviceRegistry_init tags file
  = load_devices (empty_registry (_load_vendor_stack_map tags))
      (file_entries file).
Proof.
  destruct file as [| | |items]; try done. apply load_items_registered.
Qed.




Lemma filter_none {A} (P : A -> Prop) `{!forall x, Decision (P x)} (l : list A) :
  (forall x, x ∈ l -> ¬ P x) -> filter P l = [].
Proof.
  induction l as [|x l IH]; intros Hall; [done|].
  rewrite filter_cons_False by (apply Hall, list_elem_of_here).
  apply IH. intros y Hy. by apply Hall, list_elem_of_further.
Qed.

Lemma filter_unique_name (l : list (string * device_config)) it :
  NoDup l.*1 -> it ∈ l -> last (filter (fun x => x.1 = it.1) l) = Some it.
Proof.
  induction l as [|x l IH]; intros Hnd Hin; [by apply elem_of_nil in Hin|].
  cbn [fmap list_fmap] in Hnd. apply NoDup_cons in Hnd as [Hx Hnd].
  apply elem_of_cons in Hin as [->|Hin].
  - rewrite filter_cons_True by done.
    assert (filter (fun y => y.1 = x.1) l = []) as ->; [|done].
    apply filter_none. intros y Hy Heq.
    apply Hx. rewrite <- Heq. by apply list_elem_of_fmap_2.
  - rewrite filter_cons_False; [by apply IH|].
    intros Heq. apply Hx. rewrite Heq. by apply list_elem_of_fmap_2.
Qed.

Lemma get_devices_by_vendor_index tags file vendor :
  get_devices_by_vendor (DeviceRegistry_init tags file) vendor
  = (filter (fun it => entry_vendor it.1 it.2 = lower vendor)
            (file_entries file)).*1.
Proof.
  unfold get_devices_by_vendor. by rewrite init_load, load_vendor_index.
Qed.


(** X2: the platform index keeps the first vendor seen for a platform: later
    entries of the same platform never overwrite it, even when their own
    vendor differs. *)
Theorem platform_index_first_wins
    (tags : vendor_tags) (file : testbed_file) (platform : string) :
  PyDict.get platform (platform_to_vendor (DeviceRegistry_init tags file))
  = (fun it => entry_vendor it.1 it.2)
      <$> head (filter (fun it => entry_platform it.2 = platform)
                       (file_entries file)).
Proof. by rewrite init_load, load_platform_index. Qed.

(** Two entries with the same (missing) platform and different vendors: the
    index answers with the first. *)
Example platform_index_masks_later_vendor :
  let file :=
    DevicesSection
      [("core-router", Some {| cfg_platform := None; cfg_os := None;
                               cfg_type := None; cfg_alias := None;
                               cfg_ip := None |});
       ("build-host", Some {| cfg_platform := None; cfg_os := None;
                              cfg_type := None; cfg_alias := None;
                              cfg_ip := None |})] in
  let self := DeviceRegistry_init None file in
  get_device_vendor self "core-router" = Some "cisco"
  /\ get_device_vendor self "build-host" = Some "linux"
  /\ PyDict.get "unknown" (platform_to_vendor self) = Some "cisco".
Proof. by vm_compute. Qed.

Lemma registered_entries_prefix good bad rest :
  registered_entries
    (((fun it => (it.1, Some it.2)) <$> good) ++ (bad, None) :: rest) = good.
Proof. induction good as [|[n c] good IH]; [done|]. cbn. by rewrite IH. Qed.

(** X3: lookups after loading.  [get_device_info] returns the record built
    from the last registered entry of that name, and [None] for a name that
    no registered entry has; entries that follow the first malformed one are
    not registered. *)
Theorem get_device_info_after_load
    (tags : vendor_tags) (items : list (string * option device_config))
    (device_name : string) :
  let self := DeviceRegistry_init tags (DevicesSection items) in
  get_device_info self device_name
  = (fun it => stored_device it.1 it.2)
      <$> last (filter (fun it => it.1 = device_name) (registered_entries items))
  /\ (device_name ∉ (registered_entries items).*1 ->
      get_device_info self device_name = None
      /\ get_device_vendor self device_name = None
      /\ get_stack_for_device self device_name = "pyats")
  /\ (forall good bad rest,
        items = ((fun it => (it.1, Some it.2)) <$> good) ++ (bad, None) :: rest ->
        registered_entries items = good).
Proof.
  cbn zeta. unfold get_device_info.
  assert (PyDict.get device_name
            (devices (DeviceRegistry_init tags (DevicesSection items)))
          = (fun it => stored_device it.1 it.2)
              <$> last (filter (fun it => it.1 = device_name)
                               (registered_entries items))) as Hget.
  { rewrite init_load, load_devices_lookup. cbn [file_entries].
    by destruct (last _). }
  split; [exact Hget|]. split.
  - intros Hnot.
    assert (PyDict.get device_name
              (devices (DeviceRegistry_init tags (DevicesSection items)))
            = None) as Hnone.
    { rewrite Hget.
      destruct (last _) as [it|] eqn:E; [|done]. exfalso. apply Hnot.
      apply last_Some_elem_of, list_elem_of_filter in E as [<- Hin].
      by apply list_elem_of_fmap_2. }
    unfold get_stack_for_device, get_device_vendor. by rewrite Hnone.
  - intros good bad rest ->. apply registered_entries_prefix.
Qed.

(** *** Registries with no device *)

Lemma categorize_all_pyats self names : forall l0,
  (forall n, get_stack_for_device self n = "pyats") ->
  foldl (categorize_step self) [("pyats", l0)] names
  = [("pyats", l0 ++ filter (fun n => truthy n = true) names)].
Proof.
  induction names as [|n names IH]; intros l0 Hall.
  - by rewrite app_nil_r.
  - cbn [foldl]. unfold categorize_step at 2. destruct (truthy n) eqn:Hn.
    + rewrite filter_cons_True by done. rewrite Hall. cbn.
      rewrite !decide_True by done. cbn.
      rewrite IH by done. by rewrite <- app_assoc.
    + rewrite filter_cons_False by congruence. by apply IH.
Qed.

Lemma categorize_all_pyats_nil self names :
  (forall n, get_stack_for_device self n = "pyats") ->
  foldl (categorize_step self) [] names
  = match filter (fun n => truthy n = true) names with
    | [] => []
    | l => [("pyats", l)]
    end.
Proof.
  intros Hall. induction names as [|n names IH]; [done|].
  cbn [foldl]. unfold categorize_step at 2. destruct (truthy n) eqn:Hn.
  - rewrite filter_cons_True by done. rewrite Hall. cbn.
    by rewrite categorize_all_pyats.
  - rewrite filter_cons_False by congruence. exact IH.
Qed.

(** X4: fail-open loading.  When nothing is registered (file missing,
    unreadable, without a devices section, or failing at its first entry) the
    registry has no device, and then: no device is ever extracted from a
    text, routing rests on the vendor keywords alone, every lookup misses,
    and every non-empty name is filed under the default stack "pyats". *)
Theorem registry_without_devices `{SetPop}
    (tags : vendor_tags) (file : testbed_file)
    (text device_name : string) (names : list string) :
  file_entries file = [] ->
  let self := DeviceRegistry_init tags file in
  devices self = []
  /\ extract_devices_from_text self text = []
  /\ get_routing_path self text = (None, get_vendor_from_keywords text)
  /\ get_device_info self device_name = None
  /\ get_stack_for_device self device_name = "pyats"
  /\ categorize_devices_by_stack self (Some names)
     = match filter (fun n => truthy n = true) names with
       | [] => []
       | l => [("pyats", l)]
       end.
Proof.
  intros Hfile. cbn zeta. rewrite init_load, Hfile.
  set (self := load_devices _ []).
  assert (forall n, get_stack_for_device self n = "pyats") as Hstack by done.
  split; [done|]. split; [done|]. split.
  - unfold get_routing_path.
    change (extract_devices_from_text self text) with (@nil string).
    destruct (get_vendor_from_keywords text) as [v|] eqn:Ek; [|done].
    by rewrite (get_vendor_from_keywords_truthy _ _ Ek).
  - split; [done|]. split; [done|].
    unfold categorize_devices_by_stack. destruct names as [|n names]; [done|].
    by apply categorize_all_pyats_nil.
Qed.

Lemma registry_without_devices_witness :
  file_entries FileNotFound = []
  /\ get_routing_path (DeviceRegistry_init None FileNotFound)
       "check junos uptime on R1" = (None, Some "juniper")
  /\ categorize_devices_by_stack (DeviceRegistry_init None FileNotFound)
       (Some ["R1"; ""; "J1"]) = [("pyats", ["R1"; "J1"])].
Proof.
  split; [reflexivity|].
  pose proof (registry_without_devices None FileNotFound
                "check junos uptime on R1" "R1" ["R1"; ""; "J1"] eq_refl)
    as (_ & _ & Hroute & _ & _ & Hcat).
  split; [exact Hroute | exact Hcat].
Defined.

(** *** Text matching *)






Example powershell_cmdlet_not_recognised :
  get_vendor_from_keywords "run Get-Service on the print host" = None
  /\ get_vendor_from_keywords "run a PowerShell script" = Some "windows".
Proof. by vm_compute. Qed.

(** *** Vendor helpers *)

(** X7: when the testbed names are distinct and the vendor is written in
    lower case, a request that [is_vendor_request] attributes to the vendor
    is never one that [should_skip_vendor] tells to skip. *)
Theorem vendor_request_not_skipped
    (tags : vendor_tags) (file : testbed_file)
    (mentioned_devices : list string) (vendor : string) :
  NoDup (file_entries file).*1 ->
  lower vendor = vendor ->
  let self := DeviceRegistry_init tags file in
  is_vendor_request self mentioned_devices vendor = true ->
  should_skip_vendor self mentioned_devices vendor = false.
Proof.
  intros Hnd Hlow. cbn zeta. unfold is_vendor_request, should_skip_vendor.
  destruct mentioned_devices as [|dev rest]; [done|].
  intros Hall. apply negb_false_iff, bool_decide_eq_true.
  apply mentioned_vendors_spec. exists dev. split; [apply list_elem_of_here|].
  cbn [forallb] in Hall. apply andb_prop in Hall as [Hdev _].
  apply bool_decide_eq_true in Hdev.
  rewrite get_devices_by_vendor_index, Hlow in Hdev.
  apply list_elem_of_fmap in Hdev as (it & -> & Hit).
  apply list_elem_of_filter in Hit as [Hv Hit].
  unfold get_device_vendor. rewrite init_load, load_devices_lookup.
  rewrite (filter_unique_name _ it Hnd Hit). cbn. by rewrite Hv.
Qed.

Lemma vendor_request_not_skipped_witness :
  NoDup (file_entries
           (DevicesSection
              [("R1", Some {| cfg_platform := Some "iosxe"; cfg_os := None;
                              cfg_type := None; cfg_alias := None;
                              cfg_ip := None |});
               ("J1", Some {| cfg_platform := Some "junos"; cfg_os := None;
                              cfg_type := None; cfg_alias := None;
                              cfg_ip := None |})])).*1
  /\ should_skip_vendor
       (DeviceRegistry_init None
          (DevicesSection
             [("R1", Some {| cfg_platform := Some "iosxe"; cfg_os := None;
                             cfg_type := None; cfg_alias := None;
                             cfg_ip := None |});
              ("J1", Some {| cfg_platform := Some "junos"; cfg_os := None;
                             cfg_type := None; cfg_alias := None;
                             cfg_ip := None |})]))
       ["R1"] "cisco" = false.
Proof.
  assert (NoDup ["R1"; "J1"]) as Hnd.
  { apply NoDup_cons. split.
    - intros Hin%list_elem_of_singleton. discriminate Hin.
    - apply NoDup_singleton. }
  split; [exact Hnd|].
  by apply (vendor_request_not_skipped None
              (DevicesSection
                 [("R1", Some {| cfg_platform := Some "iosxe"; cfg_os := None;
                                 cfg_type := None; cfg_alias := None;
                                 cfg_ip := None |});
                  ("J1", Some {| cfg_platform := Some "junos"; cfg_os := None;
                                 cfg_type := None; cfg_alias := None;
                                 cfg_ip := None |})])
              ["R1"] "cisco" Hnd eq_refl).
Defined.

(** Both hypotheses matter: with the vendor capitalised, or with a name
    registered twice under different vendors, the two helpers disagree. *)
Example vendor_helpers_disagree :
  let once :=
    DeviceRegistry_init None
      (DevicesSection
         [("R1", Some {| cfg_platform := Some "iosxe"; cfg_os := None;
                         cfg_type := None; cfg_alias := None;
                         cfg_ip := None |})]) in
  let twice :=
    load_devices (empty_registry default_map)
      [("R1", {| cfg_platform := Some "iosxe"; cfg_os := None;
                 cfg_type := None; cfg_alias := None; cfg_ip := None |});
       ("R1", {| cfg_platform := Some "junos"; cfg_os := None;
                 cfg_type := None; cfg_alias := None; cfg_ip := None |})] in
  is_vendor_request once ["R1"] "Cisco" = true
  /\ should_skip_vendor once ["R1"] "Cisco" = true
  /\ is_vendor_request twice ["R1"] "cisco" = true
  /\ should_skip_vendor twice ["R1"] "cisco" = true.
Proof. by vm_compute. Qed.

(** *** The vendor-to-stack map *)

(** The assignments a tag file makes, in the order the loops perform them:
    one pair (normalised vendor key, stack name) per listed vendor whose key
    is not empty. *)
Definition tag_pairs (stacks : list (string * list string))
    : list (string * string) :=
  filter (fun p => truthy p.1 = true)
         (mjoin ((fun entry : string * list string =>
                     (fun vendor => (lower (strip vendor), entry.1))
                       <$> entry.2) <$> stacks)).

Lemma foldl_insert_lookup (pairs : list (string * string)) :
  forall (m0 : gmap string string) k,
    foldl (fun m p => <[p.1 := p.2]> m) m0 pairs !! k
    = match last (filter (fun p => p.1 = k) pairs) with
      | Some p => Some p.2
      | None => m0 !! k
      end.
Proof.
  induction pairs as [|[k' s] pairs IH]; intros m0 k; [done|].
  cbn [foldl]. rewrite IH. cbn [fst snd].
  destruct (decide (k' = k)) as [->|Hne].
  - rewrite filter_cons_True by done. rewrite lookup_insert_eq.
    destruct (filter _ pairs) as [|p l] eqn:E; [done|].
    change (last ((k, s) :: p :: l)) with (last (p :: l)).
    destruct (last (p :: l)) eqn:EL; [done|]. by apply last_None in EL.
  - rewrite filter_cons_False by done. by rewrite lookup_insert_ne.
Qed.

Lemma add_stack_vendors_pairs stack_name vendors :
  forall m : gmap string string,
    foldl (add_stack_vendor stack_name) m vendors
    = foldl (fun m p => <[p.1 := p.2]> m) m
        (filter (fun p => truthy p.1 = true)
                ((fun vendor => (lower (strip vendor), stack_name)) <$> vendors)).
Proof.
  induction vendors as [|v vendors IH]; intros m; [done|].
  cbn [foldl fmap list_fmap]. unfold add_stack_vendor at 2.
  destruct (truthy (lower (strip v))) eqn:Hk.
  - rewrite filter_cons_True by done. cbn [foldl fst snd]. apply IH.
  - rewrite filter_cons_False by (cbn; congruence). apply IH.
Qed.

Lemma load_vendor_stack_map_pairs stacks :
  _load_vendor_stack_map (Some stacks)
  = foldl (fun m p => <[p.1 := p.2]> m) default_map (tag_pairs stacks).
Proof.
  unfold _load_vendor_stack_map, tag_pairs. generalize default_map.
  induction stacks as [|[s vs] stacks IH]; intros m; [done|].
  cbn [foldl fmap list_fmap mjoin list_join fst snd].
  rewrite filter_app, foldl_app, <- add_stack_vendors_pairs. apply IH.
Qed.

Lemma default_map_keys k s :
  default_map !! k = Some s ->
  k ∈ ["cisco"; "linux"; "windows"; "juniper"; "hpe"; "meraki"; "azure"].
Proof.
  intros Hk. apply elem_of_list_to_map_2 in Hk.
  repeat (apply elem_of_cons in Hk as [[= -> _]|Hk];
          [repeat (first [apply list_elem_of_here | apply list_elem_of_further])|]).
  by apply elem_of_nil in Hk.
Qed.

(** X8: merging the tag file.  A key of the loaded map holds the stack of the
    last listed vendor that normalises (strip, lower-case) to it, and the
    built-in default otherwise; every key is non-empty and free of upper-case
    letters, so [get_stack_for_vendor], which lower-cases its argument, finds
    each of them; a vendor that is empty or absent from both resolves to
    "pyats".  Without a tag file the map is the built-in one. *)
Theorem vendor_stack_map_after_load
    (stacks : list (string * list string)) (file : testbed_file)
    (vendor : string) :
  let self := DeviceRegistry_init (Some stacks) file in
  (forall k,
     vendor_stack_map self !! k
     = match last (filter (fun p => p.1 = k) (tag_pairs stacks)) with
       | Some p => Some p.2
       | None => default_map !! k
       end)
  /\ (forall k s, vendor_stack_map self !! k = Some s ->
                  no_upper k = true /\ truthy k = true)
  /\ get_stack_for_vendor self (Some vendor)
     = (if truthy vendor then
          match last (filter (fun p => p.1 = lower vendor) (tag_pairs stacks)) with
          | Some p => p.2
          | None => default "pyats" (default_map !! lower vendor)
          end
        else "pyats")
  /\ vendor_stack_map (DeviceRegistry_init None file) = default_map.
Proof.
  cbn zeta.
  assert (forall k,
    vendor_stack_map (DeviceRegistry_init (Some stacks) file) !! k
    = match last (filter (fun p => p.1 = k) (tag_pairs stacks)) with
      | Some p => Some p.2
      | None => default_map !! k
      end) as Hlook.
  { intros k. rewrite init_load, load_devices_stack_map.
    cbn [empty_registry vendor_stack_map].
    by rewrite load_vendor_stack_map_pairs, foldl_insert_lookup. }
  split; [exact Hlook|]. split; [|split].
  - intros k s. rewrite Hlook.
    destruct (last _) as [p|] eqn:E.
    + intros _. apply last_Some_elem_of, list_elem_of_filter in E as [<- Hp].
      unfold tag_pairs in Hp. apply list_elem_of_filter in Hp as [Ht Hp].
      split; [|exact Ht].
      apply list_elem_of_join in Hp as (l & Hp & Hl).
      apply list_elem_of_fmap in Hl as (entry & -> & _).
      apply list_elem_of_fmap in Hp as (v & -> & _). apply lower_no_upper.
    + intros Hk%default_map_keys.
      repeat (apply elem_of_cons in Hk as [->|Hk]; [by split|]).
      by apply elem_of_nil in Hk.
  - unfold get_stack_for_vendor. destruct (truthy vendor); [|done].
    rewrite Hlook. by destruct (last _).
  - by rewrite init_load, load_devices_stack_map.
Qed.

Example vendor_tags_override :
  let self :=
    DeviceRegistry_init
      (Some [("ansible", ["  Cisco "; ""; "arista"]); ("pyats", ["ARISTA"])])
      NoDevices in
  get_stack_for_vendor self (Some "CISCO") = "ansible"
  /\ get_stack_for_vendor self (Some "Arista") = "pyats"
  /\ get_stack_for_vendor self (Some "juniper") = "ansible"
  /\ get_stack_for_vendor self (Some " cisco ") = "pyats"
  /\ get_stack_for_vendor self None = "pyats".
Proof. by vm_compute. Qed.

(** *** Stacks under the built-in map *)

Lemma detect_vendor_range platform os_type device_name :
  _detect_vendor platform os_type device_name
  ∈ ["juniper"; "cisco"; "hpe"; "meraki"; "linux"; "windows"; "unknown"].
Proof.
  unfold _detect_vendor.
  repeat match goal with
         | |- context [if ?b then _ else _] => destruct b
         end;
    repeat (first [apply list_elem_of_here | apply list_elem_of_further]).
Qed.

Lemma builtin_stack_cases v :
  v ∈ ["juniper"; "cisco"; "hpe"; "meraki"; "linux"; "windows"; "unknown"] ->
  let stack :=
    if truthy v then default "pyats" (default_map !! lower v) else "pyats" in
  (stack = "ansible"
   /\ v ∈ ["juniper"; "hpe"; "meraki"; "linux"; "windows"])
  \/ (stack = "pyats"
      /\ v ∉ ["juniper"; "hpe"; "meraki"; "linux"; "windows"]).
Proof.
  intros Hv. cbn zeta.
  repeat (apply elem_of_cons in Hv as [->|Hv];
          [first
             [ left; split; [by vm_compute|];
               repeat (first [apply list_elem_of_here
                             | apply list_elem_of_further])
             | right; split; [by vm_compute|];
               intros Hin;
               repeat (apply elem_of_cons in Hin as [Hin|Hin];
                       [discriminate Hin|]);
               by apply elem_of_nil in Hin ]|]).
  by apply elem_of_nil in Hv.
Qed.

(** X9: with the built-in map every device name resolves to "pyats" or
    "ansible"; it resolves to "ansible" exactly when it is registered with
    one of the vendors juniper, hpe, meraki, linux, windows, so that Cisco
    devices, devices of unknown vendor and unregistered names all go to
    "pyats". *)
Theorem stack_for_device_builtin_map (file : testbed_file) (device_name : string) :
  let self := DeviceRegistry_init None file in
  get_stack_for_device self device_name ∈ ["pyats"; "ansible"]
  /\ (get_stack_for_device self device_name = "ansible"
      <-> exists v, get_device_vendor self device_name = Some v
                    /\ v ∈ ["juniper"; "hpe"; "meraki"; "linux"; "windows"]).
Proof.
  cbn zeta. unfold get_stack_for_device, get_device_vendor.
  rewrite init_load, load_devices_lookup.
  unfold get_stack_for_vendor. rewrite load_devices_stack_map.
  cbn [empty_registry vendor_stack_map _load_vendor_stack_map devices PyDict.get].
  destruct (last _) as [[n c]|]; cbn [fmap option_fmap option_map dev_vendor
                                       stored_device fst snd].
  - destruct (builtin_stack_cases (entry_vendor n c))
      as [[-> Hin]|[-> Hout]]; [apply detect_vendor_range|..].
    + split; [apply list_elem_of_further, list_elem_of_here|].
      split; [eauto | done].
    + split; [apply list_elem_of_here|].
      split; [intros Hs; discriminate Hs|].
      intros (v & [= <-] & Hin). by destruct Hout.
  - split; [apply list_elem_of_here|].
    split; [intros Hs; discriminate Hs | intros (v & Hv & _); discriminate Hv].
Qed.

(** *** The vendor cascade *)

Lemma append_assoc (a b c : string) : (a +:+ b) +:+ c = a +:+ (b +:+ c).
Proof.
  induction a as [|x a IH]; [done|].
  change (String x ((a +:+ b) +:+ c) = String x (a +:+ (b +:+ c))).
  by rewrite IH.
Qed.

(** A substring of a substring is a substring. *)
Lemma str_in_trans a b s :
  str_in a b = true -> str_in b s = true -> str_in a s = true.
Proof.
  intros (p & q & ->)%str_in_spec (p' & q' & ->)%str_in_spec.
  apply str_in_spec. exists (p' +:+ p), (q +:+ q').
  by rewrite !append_assoc.
Qed.

(** A keyword that contains another keyword of the same test adds nothing
    to the test. *)
Lemma str_in_absorb a b s :
  str_in a b = true -> str_in a s || str_in b s = str_in a s.
Proof.
  intros Hab. destruct (str_in a s) eqn:Ha; [done|].
  destruct (str_in b s) eqn:Hb; [|done].
  by rewrite (str_in_trans a b s Hab Hb) in Ha.
Qed.


(** X10: four keywords of the vendor cascade are dead.  "vsrx" (it contains
    "srx"), "iosxe" and "iosxr" (they contain "ios", in the platform test
    and in the OS test) and "hpe" (it contains "hp") never decide a test:
    each test gives the same answer without them, for every platform and OS
    string. *)
Theorem detect_vendor_dead_keywords (platform os_type : string) :
  any_in juniper_platforms platform
  = any_in ["junos"; "juniper"; "srx"; "mx"; "ex"] platform
  /\ any_in cisco_platforms platform
     = any_in ["ios"; "csr"; "nxos"; "cisco"] platform
  /\ str_in "ios" os_type || str_in "iosxe" os_type = str_in "ios" os_type
  /\ any_in hpe_platforms platform = any_in ["comware"; "hp"] platform.
Proof.
  unfold any_in, juniper_platforms, cisco_platforms, hpe_platforms.
  cbn [existsb]. rewrite !orb_false_r.
  pose proof (str_in_absorb "srx" "vsrx" platform eq_refl) as Hsrx.
  pose proof (str_in_absorb "ios" "iosxe" platform eq_refl) as Hxe.
  pose proof (str_in_absorb "ios" "iosxr" platform eq_refl) as Hxr.
  pose proof (str_in_absorb "hp" "hpe" platform eq_refl) as Hhp.
  pose proof (str_in_absorb "ios" "iosxe" os_type eq_refl) as Hos.
  split; [|split; [|split; [exact Hos|]]].
  - destruct (str_in "junos" platform), (str_in "juniper" platform),
      (str_in "srx" platform), (str_in "vsrx" platform); try done.
  - destruct (str_in "ios" platform), (str_in "iosxe" platform),
      (str_in "iosxr" platform); try done.
  - destruct (str_in "comware" platform), (str_in "hp" platform),
      (str_in "hpe" platform); try done.
Qed.


(** A platform string that merely contains "ex" or "mx" is taken for
    Juniper before any Cisco rule is tried. *)
Example nexus_detected_as_juniper :
  _detect_vendor "nexus" "nxos" "N9K-1" = "juniper"
  /\ _detect_vendor "nxos" "nxos" "N9K-1" = "cisco"
  /\ _detect_vendor "unknown" "unknown" "Core-Router-1" = "cisco"
  /\ _detect_vendor "unknown" "unknown" "" = "unknown".
Proof. by vm_compute. Qed.

End RegistryOps.

(** ** [telemetry.py]: health report and what the metrics guarantee *)

Module TelemetryOps.
Import PyStr Telemetry.

(** An entry of [report["devices"]]. *)
Record device_health := {
  h_success_rate : Q;
  h_total : nat;
  h_success : nat;
  h_failure : nat;
  h_avg_duration_ms : Q;
  h_status : string;
}.

(** An entry of [report["commands"]]. *)
Record command_health := {
  ch_success_rate : Q;
  ch_total : nat;
  ch_failed_on : list string;
  ch_status : string;
}.

(** The dictionary [get_health_report] returns.  The two inner dictionaries
    are only looked up here, so their order is not modelled. *)
Record health_report := {
  report_timestamp : Z;
  report_devices : gmap string device_health;
  report_commands : gmap string command_health;
  report_alerts : list string;
}.

(** The three status labels, as the source spells them. *)
Definition healthy_label : string := "游릭 healthy".
Definition degraded_label : string := "游리 degraded".
Definition critical_label : string := "游댮 critical".

(** [success / total] *)
Definition success_rate (succeeded total : nat) : Q :=
  Z.of_nat succeeded # Pos.of_nat total.

(** The status tier: [>= 0.9], then [>= 0.7], else critical.  The
    comparisons are exact, as for the failure-rate rule. *)
Definition health_status (rate : Q) : string :=
  if Qle_bool (9 # 10) rate then healthy_label
  else if Qle_bool (7 # 10) rate then degraded_label
  else critical_label.

Section Report.

(** [round(x, 2)] *)
Variable round2 : Q -> Q.
(** The order in which a [set] of strings is iterated. *)
Variable iter_set : gset string -> list string.

Definition device_entry (m : dev_stats) : option device_health :=
  if 0 <? total m then
    Some {| h_success_rate := success_rate (success m) (total m);
            h_total := total m;
            h_success := success m;
            h_failure := failure m;
            h_avg_duration_ms := round2 (avg_duration_ms m);
            h_status := health_status (success_rate (success m) (total m)) |}
  else None.

Definition command_entry (m : cmd_stats) : option command_health :=
  if 0 <? cmd_total m then
    Some {| ch_success_rate := success_rate (cmd_success m) (cmd_total m);
            ch_total := cmd_total m;
            ch_failed_on := iter_set (devices_failed_on m);
            ch_status :=
              health_status (success_rate (cmd_success m) (cmd_total m)) |}
  else None.

(** [get_health_report], with the instant [now] that [datetime.now()]
    reads. *)
Definition get_health_report (self : CommandTelemetry) (now : Z)
    : health_report :=
  {| report_timestamp := now;
     report_devices := omap device_entry (device_metrics self);
     report_commands := omap command_entry (command_metrics self);
     report_alerts := [] |}.

End Report.

(** *** Metrics after a sequence of calls *)

Section MetricsFacts.

Variable format_percent : nat -> nat -> string.
Variable iter_set : gset string -> list string.

Local Abbreviation check := (_check_alerts format_percent iter_set).
Local Abbreviation record := (record_execution format_percent iter_set).
Local Abbreviation record1 := (record_call format_percent iter_set).
Local Abbreviation run_calls := (run format_percent iter_set).

Lemma run_cons self c calls :
  run_calls self (c :: calls) = run_calls (record1 self c).2 calls.
Proof. reflexivity. Qed.

Lemma cmd_stats_of_record_eq self device command status duration_ms now :
  cmd_stats_of (record self device command status duration_ms now).2 command
  = update_cmd_stats (cmd_stats_of self command) device status.
Proof.
  unfold record_execution. cbn [snd]. unfold cmd_stats_of at 1.
  cbn [command_metrics]. by rewrite lookup_insert_eq.
Qed.

Lemma size_add_one (d : string) (X : gset string) :
  size ({[d]} ∪ X) <= S (size X).
Proof.
  rewrite size_union_alt, size_singleton.
  pose proof (subseteq_size (X ∖ {[d]}) X) as Hle.
  assert (X ∖ {[d]} ⊆ X) as Hsub.
  { intros x Hx. by apply elem_of_difference in Hx as [? _]. }
  specialize (Hle Hsub). lia.
Qed.

Lemma run_cmd_counters calls : forall self command,
  let c0 := cmd_stats_of self command in
  let c := cmd_stats_of (run_calls self calls) command in
  let mine := filter (fun c => call_command c = command) calls in
  cmd_total c = cmd_total c0 + length mine
  /\ cmd_success c
     = cmd_success c0 + length (filter (fun c => call_status c = SUCCESS) mine)
  /\ cmd_failure c
     = cmd_failure c0 + length (filter (fun c => call_status c ≠ SUCCESS) mine)
  /\ (size (devices_failed_on c0) <= cmd_failure c0 ->
      size (devices_failed_on c) <= cmd_failure c).
Proof.
  induction calls as [|c calls IH]; intros self command.
  - cbn. repeat split; lia.
  - specialize (IH (record1 self c).2 command). cbn zeta in IH.
    rewrite run_cons. destruct IH as (Ht & Hs & Hf & Hsz). cbn zeta.
    rewrite Ht, Hs, Hf. unfold record_call in *.
    destruct (decide (call_command c = command)) as [<-|Hne].
    + rewrite filter_cons_True by done.
      rewrite cmd_stats_of_record_eq in *. unfold update_cmd_stats in *.
      cbn [cmd_total cmd_success cmd_failure devices_failed_on] in *.
      destruct (decide (call_status c = SUCCESS)) as [Hst|Hst].
      * rewrite (filter_cons_True (fun c => call_status c = SUCCESS)) by done.
        rewrite (filter_cons_False (fun c => call_status c ≠ SUCCESS))
          by (intros ?; done).
        cbn [length]. repeat split; lia.
      * rewrite (filter_cons_False (fun c => call_status c = SUCCESS)) by done.
        rewrite (filter_cons_True (fun c => call_status c ≠ SUCCESS)) by done.
        cbn [length].
        pose proof (size_add_one (call_device c)
                      (devices_failed_on (cmd_stats_of self (call_command c)))).
        repeat split; lia.
    + rewrite filter_cons_False by done.
      rewrite cmd_stats_of_record_other in * by done.
      repeat split; lia.
Qed.

Lemma cmd_stats_of_init retention command :
  cmd_stats_of (init retention) command = new_cmd_stats.
Proof. reflexivity. Qed.

(** X12: command metrics.  After any sequence of calls on a fresh telemetry
    the counters of a command satisfy [total = N] and
    [success + failure = N], with [N] the number of calls of that command,
    and the command has failed on at most [failure] distinct devices. *)
Theorem command_counters_after_calls
    (retention : Z) (calls : list call) (command : string) :
  let c := cmd_stats_of (run_calls (init retention) calls) command in
  let mine := filter (fun c => call_command c = command) calls in
  cmd_total c = length mine
  /\ cmd_success c + cmd_failure c = length mine
  /\ cmd_failure c = length (filter (fun c => call_status c ≠ SUCCESS) mine)
  /\ size (devices_failed_on c) <= cmd_failure c.
Proof.
  destruct (run_cmd_counters calls (init retention) command)
    as (Ht & Hs & Hf & Hsz).
  cbn zeta. rewrite Ht, Hs, Hf. rewrite cmd_stats_of_init in *.
  cbn [cmd_total cmd_success cmd_failure devices_failed_on new_cmd_stats] in *.
  pose proof (filter_split_length (fun c => call_status c = SUCCESS)
                (filter (fun c => call_command c = command) calls)) as Hsplit.
  cbn beta in Hsplit. rewrite size_empty in Hsz.
  repeat split; lia.
Qed.

(** *** History *)

Lemma run_history_sublist calls : forall self device,
  status_history (dev_stats_of (run_calls self calls) device)
  `sublist_of`
  status_history (dev_stats_of self device)
  ++ (history_entry <$> filter (fun c => call_device c = device) calls).
Proof.
  induction calls as [|c calls IH]; intros self device.
  - cbn. by rewrite app_nil_r.
  - rewrite run_cons. etrans; [apply IH|]. unfold record_call.
    destruct (decide (call_device c = device)) as [<-|Hne].
    + rewrite filter_cons_True by done.
      destruct (dev_stats_of_record format_percent iter_set self
                  (call_device c) (call_command c) (call_status c)
                  (call_duration_ms c) (call_now c))
        as (_ & _ & _ & _ & ->).
      cbn [fmap list_fmap].
      change (history_entry c :: ?l) with ([history_entry c] ++ l).
      rewrite (app_assoc _ [history_entry c]).
      apply sublist_app; [apply sublist_filter | done].
    + rewrite filter_cons_False by done.
      by rewrite dev_stats_of_record_other.
Qed.

(** X13: the history of a device.  After any sequence of calls on a fresh
    telemetry the history is a sub-sequence, in call order, of the
    executions recorded for the device, so it is never longer than [total];
    and right after a call at instant [now] it holds no entry older than the
    retention window. *)
Theorem history_after_calls
    (retention : Z) (calls : list call) (device : string) :
  let st := run_calls (init retention) calls in
  status_history (dev_stats_of st device)
  `sublist_of` (history_entry <$> filter (fun c => call_device c = device) calls)
  /\ length (status_history (dev_stats_of st device))
     <= total (dev_stats_of st device)
  /\ (forall command status duration_ms now e,
        e ∈ status_history
              (dev_stats_of (record st device command status duration_ms now).2
                 device) ->
        (now - retention * 1000000 < e.2)%Z).
Proof.
  cbn zeta.
  pose proof (run_history_sublist calls (init retention) device) as Hsub.
  change (status_history (dev_stats_of (init retention) device))
    with (@nil (string * Z)) in Hsub.
  rewrite app_nil_l in Hsub.
  split; [exact Hsub|]. split.
  - apply sublist_length in Hsub. rewrite length_fmap in Hsub.
    destruct (run_counters format_percent iter_set calls (init retention) device)
      as (Ht & _).
    rewrite Ht. change (dev_stats_of (init retention) device) with new_dev_stats.
    cbn [total new_dev_stats]. lia.
  - intros command status duration_ms now e.
    destruct (dev_stats_of_record format_percent iter_set
                (run_calls (init retention) calls) device command status
                duration_ms now) as (_ & _ & _ & _ & ->).
    rewrite retention_run. intros [He _]%list_elem_of_filter. exact He.
Qed.

(** *** Moving average of the duration *)

Lemma update_avg_bounds retention d status duration_ms now (M : Q) :
  (0 <= avg_duration_ms d)%Q -> (avg_duration_ms d <= M)%Q ->
  (forall ms, duration_ms = Some ms -> (0 <= ms)%Q /\ (ms <= M)%Q) ->
  (0 <= avg_duration_ms (update_dev_stats retention d status duration_ms now))%Q
  /\ (avg_duration_ms (update_dev_stats retention d status duration_ms now)
      <= M)%Q.
Proof.
  intros H0 HM Hms. unfold update_dev_stats. cbn [avg_duration_ms].
  destruct duration_ms as [ms|]; [|done].
  destruct (Hms ms eq_refl) as [Hms0 HmsM]. split; lra.
Qed.

Lemma run_avg_bounds calls (M : Q) : forall self device,
  (0 <= avg_duration_ms (dev_stats_of self device))%Q ->
  (avg_duration_ms (dev_stats_of self device) <= M)%Q ->
  Forall (fun c => call_device c = device ->
                   forall ms, call_duration_ms c = Some ms ->
                              (0 <= ms)%Q /\ (ms <= M)%Q) calls ->
  (0 <= avg_duration_ms (dev_stats_of (run_calls self calls) device))%Q
  /\ (avg_duration_ms (dev_stats_of (run_calls self calls) device) <= M)%Q.
Proof.
  induction calls as [|c calls IH]; intros self device H0 HM Hall; [done|].
  apply Forall_cons in Hall as [Hc Hall]. rewrite run_cons.
  unfold record_call.
  destruct (decide (call_device c = device)) as [<-|Hne].
  - destruct (update_avg_bounds (retention_seconds self)
                (dev_stats_of self (call_device c)) (call_status c)
                (call_duration_ms c) (call_now c) M H0 HM (Hc eq_refl))
      as [Ha Hb].
    apply IH; [| |done]; by rewrite dev_stats_of_record_eq.
  - apply IH; [| |done]; by rewrite dev_stats_of_record_other.
Qed.

(** X14: the moving average.  On a fresh telemetry, when every duration
    recorded for a device lies between 0 and [M], so does its average
    duration; a call without a duration leaves the average unchanged.  The
    average is the exact rational [3/10 * duration + 7/10 * average]. *)
Theorem avg_duration_bounds
    (retention : Z) (calls : list call) (device : string) (M : Q) :
  (0 <= M)%Q ->
  Forall (fun c => call_device c = device ->
                   forall ms, call_duration_ms c = Some ms ->
                              (0 <= ms)%Q /\ (ms <= M)%Q) calls ->
  let st := run_calls (init retention) calls in
  (0 <= avg_duration_ms (dev_stats_of st device))%Q
  /\ (avg_duration_ms (dev_stats_of st device) <= M)%Q
  /\ (forall command status now,
        avg_duration_ms
          (dev_stats_of (record st device command status None now).2 device)
        = avg_duration_ms (dev_stats_of st device)).
Proof.
  intros HM Hall. cbn zeta.
  destruct (run_avg_bounds calls M (init retention) device) as [H0 H1];
    [done|done|done|].
  split; [exact H0|]. split; [exact H1|].
  intros command status now. by rewrite dev_stats_of_record_eq.
Qed.

(** *** Alerts *)

Lemma consecutive_fails_le_length h : consecutive_fails h <= length h.
Proof.
  rewrite (proj2 (consecutive_fails_min h)).
  pose proof (count_streak_le (reverse h)) as Hle.
  rewrite length_reverse in Hle. lia.
Qed.

Lemma run_history_length retention calls device :
  length (status_history
            (dev_stats_of (run_calls (init retention) calls) device))
  <= length (filter (fun c => call_device c = device) calls).
Proof.
  pose proof (run_history_sublist calls (init retention) device) as Hsub.
  change (status_history (dev_stats_of (init retention) device))
    with (@nil (string * Z)) in Hsub.
  rewrite app_nil_l in Hsub.
  apply sublist_length in Hsub. by rewrite length_fmap in Hsub.
Qed.

(** X15: alerts need a minimum number of executions.  On a fresh telemetry a
    call returns no high-failure-rate alert while the device has fewer than
    10 executions, no consecutive-failures alert while it has fewer than 5,
    and no command-regression alert while the command has fewer than 3
    non-successful executions (the call itself included each time). *)
Theorem alerts_need_executions
    (retention : Z) (prior : list call) (c : call) :
  let r := record1 (run_calls (init retention) prior) c in
  let all := prior ++ [c] in
  (length (filter (fun x => call_device x = call_device c) all) < 10 ->
   forall a, a ∈ returned_alerts r.1 -> is_high_failure_rate a = false)
  /\ (length (filter (fun x => call_device x = call_device c) all) < 5 ->
      forall a, a ∈ returned_alerts r.1 -> is_consecutive_failures a = false)
  /\ (length (filter (fun x => call_status x ≠ SUCCESS)
                (filter (fun x => call_command x = call_command c) all)) < 3 ->
      forall a, a ∈ returned_alerts r.1 -> is_command_regression a = false).
Proof.
  cbn zeta. unfold record_call.
  destruct (run_counters format_percent iter_set (prior ++ [c])
              (init retention) (call_device c)) as (Ht & _).
  pose proof (run_history_length retention (prior ++ [c]) (call_device c))
    as Hlen.
  destruct (run_cmd_counters (prior ++ [c]) (init retention) (call_command c))
    as (_ & _ & Hf & Hsz).
  rewrite run_snoc in Ht, Hlen, Hf, Hsz. unfold record_call in Ht, Hlen, Hf, Hsz.
  change (dev_stats_of (init retention) (call_device c)) with new_dev_stats in Ht.
  rewrite cmd_stats_of_init in Hf, Hsz.
  cbn [total new_dev_stats cmd_failure devices_failed_on new_cmd_stats] in *.
  rewrite size_empty in Hsz. specialize (Hsz (Nat.le_refl 0)).
  split; [|split]; intros Hfew a Hin;
    match goal with
    | |- ?k a = false => destruct (k a) eqn:Ha; [exfalso|done]
    end;
    rewrite returned_alerts_record in Hin.
  - pose proof (proj1 (high_failure_rate_alert_iff _ _ _ _ _)
                  (ex_intro _ a (conj Hin Ha))) as Hrule.
    apply andb_prop in Hrule as [H10%Nat.leb_le _]. lia.
  - pose proof (proj1 (consecutive_failures_alert_iff _ _ _ _ _)
                  (ex_intro _ a (conj Hin Ha))) as Hrule.
    apply Nat.leb_le in Hrule. unfold consecutive_failures_threshold in Hrule.
    pose proof (consecutive_fails_le_length
                  (status_history
                     (dev_stats_of
                        (record (run_calls (init retention) prior)
                           (call_device c) (call_command c) (call_status c)
                           (call_duration_ms c) (call_now c)).2
                        (call_device c)))).
    lia.
  - pose proof (proj1 (command_regression_alert_iff _ _ _ _ _)
                  (ex_intro _ a (conj Hin Ha))) as Hrule.
    apply Nat.leb_le in Hrule. lia.
Qed.

(** The failed-on set of a command only grows. *)
Lemma failed_on_grows calls self command :
  devices_failed_on (cmd_stats_of self command)
  ⊆ devices_failed_on (cmd_stats_of (run_calls self calls) command).
Proof. intros d Hd. apply run_failed_on. by left. Qed.

(** X16: the command-regression alert is permanent.  Once a command has
    failed on three devices, every later execution of that command, on any
    device and with any status, SUCCESS included, returns the alert. *)
Theorem command_regression_is_permanent
    (self : CommandTelemetry) (later : list call) (c : call) :
  3 <= size (devices_failed_on (cmd_stats_of self (call_command c))) ->
  exists a,
    a ∈ returned_alerts (record1 (run_calls self later) c).1
    /\ is_command_regression a = true.
Proof.
  intros H3. unfold record_call. rewrite returned_alerts_record.
  apply command_regression_alert_iff, Nat.leb_le.
  rewrite cmd_stats_of_record.
  pose proof (subseteq_size _ _ (failed_on_grows later self (call_command c)))
    as Hgrow.
  destruct (decide (call_status c = SUCCESS)); [lia|].
  etrans; [|apply subseteq_size, union_subseteq_r]. lia.
Qed.

(** X17: isolation.  Recording an execution of [command] on [device] changes
    neither the statistics of any other device, nor those of any other
    command, nor the retention, so the alerts of a pair of another device
    and another command are what they were. *)
Theorem record_execution_frame
    (self : CommandTelemetry) (device command : string)
    (status : ExecutionStatus) (duration_ms : option Q) (now : Z) :
  let st := (record self device command status duration_ms now).2 in
  retention_seconds st = retention_seconds self
  /\ (forall other, other ≠ device ->
        dev_stats_of st other = dev_stats_of self other)
  /\ (forall other, other ≠ command ->
        cmd_stats_of st other = cmd_stats_of self other)
  /\ (forall other_device other_command,
        other_device ≠ device -> other_command ≠ command ->
        check st other_device other_command
        = check self other_device other_command).
Proof.
  cbn zeta. split; [done|]. split; [|split].
  - intros other Hne. by apply dev_stats_of_record_other.
  - intros other Hne. by apply cmd_stats_of_record_other.
  - intros od oc Hd Hc. rewrite !check_alerts_parts.
    by rewrite dev_stats_of_record_other, cmd_stats_of_record_other.
Qed.

Lemma record_execution_fst self device command status duration_ms now :
  (record self device command status duration_ms now).1
  = match check (record self device command status duration_ms now).2
            device command with
    | [] => None
    | _ :: _ =>
        Some (check (record self device command status duration_ms now).2
                device command)
    end.
Proof. reflexivity. Qed.

(** X18: the shape of the return value.  [record_execution] never returns an
    empty list: it returns [None] exactly when no rule fires, and otherwise
    between one and three messages, each of one of the three kinds. *)
Theorem returned_alerts_shape
    (self : CommandTelemetry) (device command : string)
    (status : ExecutionStatus) (duration_ms : option Q) (now : Z) :
  let r := record self device command status duration_ms now in
  let d := dev_stats_of r.2 device in
  r.1 ≠ Some []
  /\ length (returned_alerts r.1) <= 3
  /\ (forall a, a ∈ returned_alerts r.1 ->
        is_high_failure_rate a || is_consecutive_failures a
        || is_command_regression a = true)
  /\ (r.1 = None <->
      (10 <=? total d) && failure_rate_exceeded d = false
      /\ consecutive_fails (status_history d) < 5
      /\ size (devices_failed_on (cmd_stats_of r.2 command)) < 3).
Proof.
  cbn zeta.
  rewrite (returned_alerts_record format_percent iter_set self device
             command status duration_ms now).
  rewrite (record_execution_fst self device command status duration_ms now).
  generalize (record self device command status duration_ms now).2.
  intros st. rewrite check_alerts_parts.
  unfold consecutive_failures_threshold.
  pose proof (alert_kinds format_percent iter_set device command
                (dev_stats_of st device)
                (consecutive_fails (status_history (dev_stats_of st device)))
                (cmd_stats_of st command)) as Hk.
  cbn zeta in Hk.
  destruct Hk as ((Hh1 & Hh2 & Hh3) & (Hf1 & Hf2 & Hf3) & (Hr1 & Hr2 & Hr3)).
  destruct ((10 <=? total (dev_stats_of st device))
            && failure_rate_exceeded (dev_stats_of st device)) eqn:E1;
    destruct (5 <=? consecutive_fails
                      (status_history (dev_stats_of st device))) eqn:E2;
    destruct (3 <=? size (devices_failed_on (cmd_stats_of st command)))
      eqn:E3;
    first [apply Nat.leb_le in E2 | apply Nat.leb_gt in E2];
    first [apply Nat.leb_le in E3 | apply Nat.leb_gt in E3];
    cbn [app length];
    (split; [done|]); (split; [lia|]);
    (split;
     [intros a Hin;
      repeat (apply elem_of_cons in Hin as [->|Hin];
              [first [ by rewrite Hh1 | by rewrite Hf2, orb_true_r
                     | by rewrite Hr3, orb_true_r ]|]);
      by apply elem_of_nil in Hin
     |split; [intros Hnone; try discriminate Hnone; repeat split; lia
             |intros (Hh & Hc & Hs);
              first [discriminate Hh | exfalso; lia | done]]]).
Qed.

End MetricsFacts.

(** *** The health report *)

Section ReportFacts.

Variable format_percent : nat -> nat -> string.
Variable iter_set : gset string -> list string.
Variable round2 : Q -> Q.

Local Abbreviation record1 := (record_call format_percent iter_set).
Local Abbreviation run_calls := (run format_percent iter_set).
Local Abbreviation report := (get_health_report round2 iter_set).

(** [success / total >= k / 10], on the counters. *)
Lemma rate_at_least (k s t : nat) :
  0 < t ->
  Qle_bool (Z.of_nat k # 10) (success_rate s t) = (k * t <=? 10 * s).
Proof.
  intros Ht. apply eq_true_iff_eq.
  rewrite Qle_bool_iff, Nat.leb_le. unfold Qle, success_rate.
  cbn [Qnum Qden].
  rewrite <- (positive_nat_Z (Pos.of_nat t)), Nat2Pos.id by lia. lia.
Qed.

Lemma health_status_spec (s t : nat) :
  0 < t ->
  health_status (success_rate s t)
  = if 9 * t <=? 10 * s then healthy_label
    else if 7 * t <=? 10 * s then degraded_label else critical_label.
Proof.
  intros Ht. rewrite <- (rate_at_least 9), <- (rate_at_least 7) by done.
  reflexivity.
Qed.

(** A device has an entry in [device_metrics] exactly when it had one at the
    start or one of the calls names it. *)
Lemma run_device_lookup calls : forall self device,
  device_metrics (run_calls self calls) !! device = None
  <-> device_metrics self !! device = None
      /\ filter (fun c => call_device c = device) calls = [].
Proof.
  induction calls as [|c calls IH]; intros self device.
  - cbn. split; [done | by intros [? _]].
  - rewrite run_cons, IH. unfold record_call, record_execution.
    cbn [snd device_metrics]. rewrite lookup_insert_None.
    destruct (decide (call_device c = device)) as [Heq|Hne].
    + rewrite filter_cons_True by done.
      split; [by intros [[_ ?] _] | by intros [_ ?]].
    + rewrite filter_cons_False by done.
      split; [by intros [[? _] ?] | by intros [? ?]].
Qed.

Lemma run_command_lookup calls : forall self command,
  command_metrics (run_calls self calls) !! command = None
  <-> command_metrics self !! command = None
      /\ filter (fun c => call_command c = command) calls = [].
Proof.
  induction calls as [|c calls IH]; intros self command.
  - cbn. split; [done | by intros [? _]].
  - rewrite run_cons, IH. unfold record_call, record_execution.
    cbn [snd command_metrics]. rewrite lookup_insert_None.
    destruct (decide (call_command c = command)) as [Heq|Hne].
    + rewrite filter_cons_True by done.
      split; [by intros [[_ ?] _] | by intros [_ ?]].
    + rewrite filter_cons_False by done.
      split; [by intros [[? _] ?] | by intros [? ?]].
Qed.

Lemma dev_stats_of_lookup self device m :
  device_metrics self !! device = Some m -> dev_stats_of self device = m.
Proof. intros Hm. unfold dev_stats_of. by rewrite Hm. Qed.

Lemma cmd_stats_of_lookup self command m :
  command_metrics self !! command = Some m -> cmd_stats_of self command = m.
Proof. intros Hm. unfold cmd_stats_of. by rewrite Hm. Qed.

(** The entry of a device in the report, after any sequence of calls on a
    fresh telemetry. *)
Lemma report_device_entry retention calls now device :
  report_devices (report (run_calls (init retention) calls) now) !! device
  = if decide (filter (fun c => call_device c = device) calls = [])
    then None
    else device_entry round2
           (dev_stats_of (run_calls (init retention) calls) device).
Proof.
  unfold get_health_report. cbn [report_devices]. rewrite lookup_omap.
  pose proof (run_device_lookup calls (init retention) device) as Hdom.
  destruct (decide (filter (fun c => call_device c = device) calls = []))
    as [Hnil|Hcons].
  - by rewrite (proj2 Hdom (conj (lookup_empty _) Hnil)).
  - destruct (device_metrics (run_calls (init retention) calls) !! device)
      as [m|] eqn:Hm.
    + by rewrite (dev_stats_of_lookup _ _ _ Hm).
    + by destruct (proj1 Hdom eq_refl) as [_ ?].
Qed.

Lemma report_command_entry retention calls now command :
  report_commands (report (run_calls (init retention) calls) now) !! command
  = if decide (filter (fun c => call_command c = command) calls = [])
    then None
    else command_entry iter_set
           (cmd_stats_of (run_calls (init retention) calls) command).
Proof.
  unfold get_health_report. cbn [report_commands]. rewrite lookup_omap.
  pose proof (run_command_lookup calls (init retention) command) as Hdom.
  destruct (decide (filter (fun c => call_command c = command) calls = []))
    as [Hnil|Hcons].
  - by rewrite (proj2 Hdom (conj (lookup_empty _) Hnil)).
  - destruct (command_metrics (run_calls (init retention) calls) !! command)
      as [m|] eqn:Hm.
    + by rewrite (cmd_stats_of_lookup _ _ _ Hm).
    + by destruct (proj1 Hdom eq_refl) as [_ ?].
Qed.

Lemma length_pos_cons {A} (l : list A) : l ≠ [] -> 0 < length l.
Proof. destruct l; [done | cbn; lia]. Qed.

(** X19: the device part of the health report.  After any sequence of calls
    on a fresh telemetry the report has an entry for exactly the devices
    that were called; the entry counts the device's calls and its SUCCESS
    calls, and its status is healthy when the successes are at least 9/10
    of the calls, degraded when at least 7/10, critical otherwise (rates
    compared exactly).  The list of alerts of the report is always empty. *)
Theorem health_report_devices
    (retention : Z) (calls : list call) (now : Z) (device : string) :
  let rep := report (run_calls (init retention) calls) now in
  let mine := filter (fun c => call_device c = device) calls in
  let wins := filter (fun c => call_status c = SUCCESS) mine in
  (report_devices rep !! device = None <-> mine = [])
  /\ (forall h, report_devices rep !! device = Some h ->
        h_total h = length mine
        /\ h_success h = length wins
        /\ h_success h + h_failure h = h_total h
        /\ h_success_rate h = success_rate (length wins) (length mine)
        /\ h_status h
           = (if 9 * length mine <=? 10 * length wins then healthy_label
              else if 7 * length mine <=? 10 * length wins then degraded_label
              else critical_label))
  /\ report_alerts rep = []
  /\ report_timestamp rep = now.
Proof.
  cbn zeta. rewrite report_device_entry.
  destruct (run_counters format_percent iter_set calls (init retention) device)
    as (Ht & Hs & Hf & _).
  change (dev_stats_of (init retention) device) with new_dev_stats in Ht, Hs, Hf.
  cbn [total success failure new_dev_stats] in Ht, Hs, Hf.
  pose proof (filter_split_length (fun c => call_status c = SUCCESS)
                (filter (fun c => call_device c = device) calls)) as Hsplit.
  cbn beta in Hsplit.
  destruct (decide (filter (fun c => call_device c = device) calls = []))
    as [Hnil|Hcons].
  - split; [done|]. split; [by intros h [=]|done].
  - apply length_pos_cons in Hcons as Hpos. unfold device_entry.
    rewrite Ht. cbn [Nat.add].
    rewrite (proj2 (Nat.ltb_lt 0 _) Hpos).
    split; [split; [by intros [=] | done]|]. split; [|done].
    intros h [= <-]. cbn [h_total h_success h_failure h_success_rate h_status].
    rewrite Hs, Hf. cbn [Nat.add].
    rewrite health_status_spec by done. repeat split; lia.
Qed.

(** X20: the command part of the health report.  After any sequence of calls
    on a fresh telemetry the report has an entry for exactly the commands
    that were run; the entry counts the command's calls, lists the devices
    on which a non-successful execution of the command was recorded, in the
    iteration order of the set, and has the same three status tiers. *)
Theorem health_report_commands
    (retention : Z) (calls : list call) (now : Z) (command : string) :
  let rep := report (run_calls (init retention) calls) now in
  let mine := filter (fun c => call_command c = command) calls in
  let wins := filter (fun c => call_status c = SUCCESS) mine in
  (report_commands rep !! command = None <-> mine = [])
  /\ (forall h, report_commands rep !! command = Some h ->
        ch_total h = length mine
        /\ ch_success_rate h = success_rate (length wins) (length mine)
        /\ ch_status h
           = (if 9 * length mine <=? 10 * length wins then healthy_label
              else if 7 * length mine <=? 10 * length wins then degraded_label
              else critical_label)
        /\ exists failed_on : gset string,
             ch_failed_on h = iter_set failed_on
             /\ forall d, d ∈ failed_on
                          <-> exists c, c ∈ mine /\ call_device c = d
                                        /\ call_status c ≠ SUCCESS).
Proof.
  cbn zeta. rewrite report_command_entry.
  destruct (run_cmd_counters format_percent iter_set calls (init retention)
              command) as (Ht & Hs & _ & _).
  rewrite cmd_stats_of_init in Ht, Hs.
  cbn [cmd_total cmd_success new_cmd_stats] in Ht, Hs.
  destruct (decide (filter (fun c => call_command c = command) calls = []))
    as [Hnil|Hcons].
  - split; [done|]. by intros h [=].
  - apply length_pos_cons in Hcons as Hpos. unfold command_entry.
    rewrite Ht. cbn [Nat.add].
    rewrite (proj2 (Nat.ltb_lt 0 _) Hpos).
    split; [split; [by intros [=] | done]|].
    intros h [= <-]. cbn [ch_total ch_success_rate ch_status ch_failed_on].
    rewrite Hs. cbn [Nat.add].
    rewrite health_status_spec by done. repeat split.
    eexists. split; [reflexivity|]. intros d.
    rewrite (run_failed_on format_percent iter_set calls (init retention)
               command d).
    rewrite cmd_stats_of_init. cbn [devices_failed_on new_cmd_stats].
    split.
    + intros [Hd|(c & Hc & Hcmd & Hdev & Hst)]; [by apply elem_of_empty in Hd|].
      exists c. split; [by apply list_elem_of_filter|done].
    + intros (c & [Hcmd Hc]%list_elem_of_filter & Hdev & Hst).
      right. by exists c.
Qed.

(** X21: alerts and the report agree on a failing device.  When a call,
    after any sequence of calls on a fresh telemetry, returns a
    high-failure-rate alert, the report taken right after it shows the
    device as critical; the report itself never repeats the alert. *)
Theorem high_failure_rate_is_critical
    (retention : Z) (prior : list call) (c : call) (now : Z) :
  let r := record1 (run_calls (init retention) prior) c in
  (exists a, a ∈ returned_alerts r.1 /\ is_high_failure_rate a = true) ->
  exists h,
    report_devices (report r.2 now) !! call_device c = Some h
    /\ h_status h = critical_label
    /\ report_alerts (report r.2 now) = [].
Proof.
  cbn zeta. intros Halert. unfold record_call in Halert.
  rewrite returned_alerts_record in Halert.
  apply high_failure_rate_alert_iff, andb_prop in Halert as [H10 Hrate].
  apply Nat.leb_le in H10.
  apply failure_rate_exceeded_spec in Hrate; [|lia].
  rewrite <- (run_snoc format_percent iter_set). rewrite report_device_entry.
  destruct (run_counters format_percent iter_set (prior ++ [c])
              (init retention) (call_device c)) as (Ht & Hs & Hf & _).
  change (dev_stats_of (init retention) (call_device c))
    with new_dev_stats in Ht, Hs, Hf.
  cbn [total success failure new_dev_stats Nat.add] in Ht, Hs, Hf.
  pose proof (filter_split_length (fun c => call_status c = SUCCESS)
                (filter (fun x => call_device x = call_device c) (prior ++ [c])))
    as Hsplit.
  cbn beta in Hsplit.
  rewrite run_snoc in Ht, Hs, Hf. unfold record_call in Ht, Hs, Hf.
  rewrite <- Ht, <- Hs, <- Hf in Hsplit.
  rewrite decide_False; last first.
  { intros Hnil. rewrite Hnil in Ht. cbn [length] in Ht. lia. }
  rewrite run_snoc. unfold record_call, device_entry.
  rewrite (proj2 (Nat.ltb_lt 0 _)) by lia.
  eexists. split; [reflexivity|]. split; [|done].
  cbn [h_status]. rewrite health_status_spec by lia.
  rewrite (proj2 (Nat.leb_gt _ _)) by lia.
  by rewrite (proj2 (Nat.leb_gt _ _)) by lia.
Qed.

End ReportFacts.

(** *** Instances *)

Definition timed_calls : list call :=
  [ {| call_device := "R1"; call_command := "show version";
       call_status := SUCCESS; call_duration_ms := Some (40 # 1);
       call_now := 0 |};
    {| call_device := "R1"; call_command := "show version";
       call_status := TIMEOUT; call_duration_ms := None;
       call_now := 1 |};
    {| call_device := "R1"; call_command := "show version";
       call_status := SUCCESS; call_duration_ms := Some (10 # 1);
       call_now := 2 |} ].

Lemma avg_duration_bounds_witness :
  (0 <= 40)%Q
  /\ (avg_duration_ms
        (dev_stats_of
           (run decimal_percent sorted_iter (init 3600) timed_calls) "R1")
      <= 40)%Q.
Proof.
  assert (0 <= 40)%Q as HM by done.
  split; [exact HM|].
  refine (proj1 (proj2 (avg_duration_bounds decimal_percent sorted_iter 3600
                          timed_calls "R1" 40 HM _))).
  unfold timed_calls.
  repeat first [apply Forall_nil_2 | apply Forall_cons_2];
    intros _ ms Hms; cbn in Hms; try discriminate Hms;
    injection Hms as <-; by split.
Defined.

Lemma command_regression_is_permanent_witness :
  exists a,
    a ∈ returned_alerts
          (record_call decimal_percent sorted_iter
             (run decimal_percent sorted_iter (init 3600)
                [failure_call "R1" "ping 8.8.8.8" 0;
                 failure_call "R2" "ping 8.8.8.8" 1;
                 failure_call "R3" "ping 8.8.8.8" 2])
             {| call_device := "R9"; call_command := "ping 8.8.8.8";
                call_status := SUCCESS; call_duration_ms := None;
                call_now := 7200000000 |}).1
    /\ is_command_regression a = true.
Proof.
  apply (command_regression_is_permanent decimal_percent sorted_iter
           (run decimal_percent sorted_iter (init 3600)
              [failure_call "R1" "ping 8.8.8.8" 0;
               failure_call "R2" "ping 8.8.8.8" 1;
               failure_call "R3" "ping 8.8.8.8" 2])
           []
           {| call_device := "R9"; call_command := "ping 8.8.8.8";
              call_status := SUCCESS; call_duration_ms := None;
              call_now := 7200000000 |}).
  by vm_compute.
Defined.

Lemma high_failure_rate_is_critical_witness :
  exists h,
    report_devices
      (get_health_report Qred sorted_iter
         (record_call decimal_percent sorted_iter
            (run decimal_percent sorted_iter (init 3600)
               (failure_call "R1" "show version"
                  <$> [0; 1; 2; 3; 4; 5; 6; 7; 8]%Z))
            (failure_call "R1" "show version" 9)).2 10) !! "R1" = Some h
    /\ h_status h = critical_label
    /\ report_alerts
         (get_health_report Qred sorted_iter
            (record_call decimal_percent sorted_iter
               (run decimal_percent sorted_iter (init 3600)
                  (failure_call "R1" "show version"
                     <$> [0; 1; 2; 3; 4; 5; 6; 7; 8]%Z))
               (failure_call "R1" "show version" 9)).2 10) = [].
Proof.
  apply (high_failure_rate_is_critical decimal_percent sorted_iter Qred 3600
           (failure_call "R1" "show version" <$> [0; 1; 2; 3; 4; 5; 6; 7; 8]%Z)
           (failure_call "R1" "show version" 9) 10).
  exists "HIGH FAILURE RATE on R1: 100.0% (10/10 failed)".
  split; [|reflexivity]. vm_compute. apply list_elem_of_here.
Defined.

End TelemetryOps.

(** ** [intent_classifier.py]: the answers of the model, and the local model *)

Module ClassifierOps.
Import PyStr PyExn IntentClassifier.

(** What [requests.post] returns, as far as [_classify_with_ollama] reads
    it: [status_code] and what [response.json()] yields. *)
Record http_response := {
  status_code : Z;
  response_json : outcome json;
}.

(** [v.strip()]: only a string has [strip]. *)
Definition json_strip (v : json) : outcome string :=
  match v with
  | JStr s => Return (RegistryOps.strip s)
  | _ => Raise AttributeError
  end.

Section Ollama.

(** [json.loads] *)
Variable json_loads : string -> outcome json.
(** [float(s)] for a string [s]; [None] stands for [ValueError]. *)
Variable float_of_str : string -> option Q.
(** [REQUESTS_AVAILABLE]: whether [import requests] succeeded. *)
Variable REQUESTS_AVAILABLE : bool.
(** The POST to [/api/generate] for the prompt built from the query, run in
    the executor: the response, or the exception that was raised. *)
Variable ollama_post : string -> outcome http_response.

(** The body of the inner [try] of [_classify_with_ollama]. *)
Definition parse_ollama_response (response_text : string)
    : outcome ClassificationResult :=
  result ← json_loads response_text;
  raw_intent ← json_get result "intent" (JStr "OTHER");
  intent_str ← json_upper raw_intent;
  raw_confidence ← json_get result "confidence" (JNum (1 # 2));
  confidence ← py_float float_of_str raw_confidence;
  reasoning ← json_get result "reasoning" (JStr "Ollama classification");
  intent ← try_except (RequestIntent_getitem intent_str)
             (fun e => match e with KeyError => true | _ => false end)
             (Return OTHER);
  Return {| intent := intent; confidence := confidence;
            reasoning := reasoning; method := "ollama" |}.

(** [_classify_with_ollama] *)
Definition _classify_with_ollama (user_query : string)
    : outcome ClassificationResult :=
  if negb REQUESTS_AVAILABLE then _classify_with_keywords user_query
  else
    try_except
      (response ← ollama_post user_query;
       if negb (status_code response =? 200)%Z
       then _classify_with_keywords user_query
       else
         data ← response_json response;
         raw ← json_get data "response" (JStr "");
         response_text ← json_strip raw;
         try_except (parse_ollama_response response_text)
           is_JSONDecodeError (_classify_with_keywords user_query))
      is_Exception (_classify_with_keywords user_query).

End Ollama.

(** *** Member lookup *)




Lemma getitem_cases name :
  (exists i, value i = name /\ RequestIntent_getitem name = Return i)
  \/ ((forall i, value i ≠ name) /\ RequestIntent_getitem name = Raise KeyError).
Proof.
  unfold RequestIntent_getitem.
  destruct (find _ all_intents) as [i|] eqn:E.
  - apply find_some in E as [_ Hi%bool_decide_eq_true]. left. by exists i.
  - right. split; [|done]. intros i Hi.
    pose proof (find_none _ _ E i) as Hnone.
    rewrite bool_decide_eq_false in Hnone. apply Hnone; [|done].
    destruct i; cbn; tauto.
Qed.

(** [RequestIntent[intent_str]] with its [except KeyError]. *)
Definition resolve_label (intent_str : string) : RequestIntent :=
  match RequestIntent_getitem intent_str with
  | Return i => i
  | Raise _ => OTHER
  end.

Lemma resolve_label_try intent_str :
  try_except (RequestIntent_getitem intent_str)
    (fun e => match e with KeyError => true | _ => false end) (Return OTHER)
  = Return (resolve_label intent_str).
Proof.
  unfold resolve_label.
  destruct (getitem_cases intent_str) as [(i & _ & ->)|[_ ->]]; done.
Qed.


Section LlmFacts.

Variable json_loads : string -> outcome json.
Variable float_of_str : string -> option Q.

Local Abbreviation parse := (parse_llm_response json_loads float_of_str).
Local Abbreviation with_llm := (_classify_with_llm json_loads float_of_str).
Local Abbreviation classify1 := (classify json_loads float_of_str).
Local Abbreviation to_float := (py_float float_of_str).

(** [parse_llm_response] on a document that is a JSON object. *)
Lemma parse_object text fields :
  json_loads text = Return (JObj fields) ->
  parse text
  = (intent_str ← json_upper (default (JStr "OTHER") (PyDict.get "intent" fields));
     confidence ← to_float (default (JNum (1 # 2))
                              (PyDict.get "confidence" fields));
     Return {| intent := resolve_label intent_str; confidence := confidence;
               reasoning := default (JStr "LLM classification")
                              (PyDict.get "reasoning" fields);
               method := "llm" |}).
Proof.
  intros Hloads. unfold parse_llm_response. rewrite Hloads.
  cbn [mbind outcome_bind json_get].
  destruct (json_upper _) as [intent_str|e]; cbn [mbind outcome_bind]; [|done].
  destruct (to_float _) as [q|e]; cbn [mbind outcome_bind]; [|done].
  by rewrite resolve_label_try.
Qed.



(** X23: when an answer of the model is rejected.  [parse_llm_response]
    raises exactly when [json.loads] raises, or the document is not an
    object, or its "intent" is not a string, or its "confidence" does not
    convert to a number; a missing field, an unknown label and any
    "reasoning" are accepted.  Every such answer, like a failing backend,
    sends [_classify_with_llm] to the keyword result, whatever exception
    was raised. *)
Theorem llm_answer_rejected (text : string) :
  ((exists e, parse text = Raise e)
   <-> (exists e, json_loads text = Raise e)
       \/ (exists v, json_loads text = Return v
                     /\ match v with
                        | JObj fields =>
                            (forall s,
                               default (JStr "OTHER")
                                 (PyDict.get "intent" fields) ≠ JStr s)
                            \/ (exists e,
                                  to_float (default (JNum (1 # 2))
                                              (PyDict.get "confidence" fields))
                                  = Raise e)
                        | _ => True
                        end))
  /\ (forall c md user_query,
        c md user_query = Return text ->
        (exists e, parse text = Raise e) ->
        with_llm c md user_query = _classify_with_keywords user_query)
  /\ (forall c md user_query e,
        c md user_query = Raise e ->
        with_llm c md user_query = _classify_with_keywords user_query).
Proof.
  split; [|split].
  - destruct (json_loads text) as [v|e] eqn:Hloads.
    + destruct v as [| | | |items|fields];
        try (split;
             [intros _; right; eexists; split; [reflexivity|exact I]
             |intros _; unfold parse_llm_response; rewrite Hloads;
              by eexists]).
      rewrite (parse_object _ _ Hloads).
      destruct (default (JStr "OTHER") (PyDict.get "intent" fields))
        as [| | |s| |] eqn:Hi; cbn [json_upper mbind outcome_bind];
        try (split;
             [intros _; right; eexists; split; [reflexivity|]; left;
              intros s; by rewrite Hi
             |intros _; by eexists]).
      destruct (to_float _) as [q|e] eqn:Hq; cbn [mbind outcome_bind].
      * split; [by intros [e [=]]|].
        intros [[e [=]]|(v & [= <-] & [Hs|[e He]])]; [by destruct (Hs s)|].
        rewrite Hq in He. discriminate He.
      * split; [|intros _; by eexists].
        intros _. right. eexists. split; [reflexivity|]. right.
        exists e. exact Hq.
    + split; [intros _; left; by eexists|].
      intros _. unfold parse_llm_response. rewrite Hloads. by eexists.
  - intros c md user_query Hc [e He]. unfold _classify_with_llm.
    destruct (classify_with_keywords_returns user_query) as (rk & -> & _).
    rewrite Hc. cbn [mbind outcome_bind]. rewrite He.
    cbn [try_except]. by destruct (is_JSONDecodeError e).
  - intros c md user_query e Hc. unfold _classify_with_llm. by rewrite Hc.
Qed.


(** Once a classifier holds a client, a call leaves it as it is. *)
Lemma classify_bound self imported user_query c :
  client self = Some c ->
  classify1 self imported user_query
  = (with_llm c (model self) user_query, self).
Proof.
  intros Hc. unfold classify. rewrite Hc. cbv beta iota zeta. by rewrite Hc.
Qed.




(** X25: the backend is bound once.  A classifier that holds a client
    answers every call of a sequence through that client and its own model
    name, whatever the imports of the later calls would provide; and a
    classifier without a client that imports one on its first call keeps,
    for all later calls, that client and the model name chosen then: the
    Ollama name if the Ollama flag is set, else the Groq name if the Groq
    flag is set, else its own name, "gpt-3.5-turbo" when it has none. *)
Theorem classify_binds_backend_once
    (self : classifier) (c : llm_client)
    (calls : list (option http_server_exports * string)) :
  client self = Some c ->
  classify_all json_loads float_of_str self calls
  = (fun call => with_llm c (model self) call.2) <$> calls
  /\ (forall m own_model user_query,
        shared_client m = Some c ->
        let chosen :=
          if USE_OLLAMA_FLAG m then OLLAMA_MODEL m
          else if USE_GROQ_FLAG m then GROQ_MODEL m
          else Some (default "gpt-3.5-turbo" own_model) in
        classify_all json_loads float_of_str
          {| client := None; model := own_model |}
          ((Some m, user_query) :: calls)
        = (fun call => with_llm c chosen call.2)
            <$> ((Some m, user_query) :: calls)).
Proof.
  intros Hc.
  assert (forall calls self, client self = Some c ->
            classify_all json_loads float_of_str self calls
            = (fun call => with_llm c (model self) call.2) <$> calls) as Hall.
  { clear. induction calls as [|[imported q] calls IH]; intros self Hc; [done|].
    cbn [classify_all fmap list_fmap snd].
    rewrite (classify_bound _ _ _ _ Hc). by rewrite IH. }
  split; [by apply Hall|].
  intros m own_model user_query Hm. cbn zeta.
  cbn [classify_all fmap list_fmap snd]. unfold classify at 1.
  cbn [client model]. rewrite Hm. cbn [client model].
  destruct own_model as [md|]; cbn [default];
    (rewrite Hall by done); reflexivity.
Qed.

End LlmFacts.

(** *** Keyword classification *)

Lemma keyword_score_other q : keyword_score q OTHER = 0.
Proof. reflexivity. Qed.



(** *** The local model *)

Section OllamaFacts.

Variable json_loads : string -> outcome json.
Variable float_of_str : string -> option Q.
Variable REQUESTS_AVAILABLE : bool.
Variable ollama_post : string -> outcome http_response.

Local Abbreviation with_ollama :=
  (_classify_with_ollama json_loads float_of_str REQUESTS_AVAILABLE ollama_post).
Local Abbreviation parse_ollama := (parse_ollama_response json_loads float_of_str).

Lemma parse_ollama_method text r :
  parse_ollama text = Return r -> method r = "ollama".
Proof.
  unfold parse_ollama_response.
  destruct (json_loads text) as [v|e]; cbn [mbind outcome_bind]; [|done].
  destruct v; cbn [json_get mbind outcome_bind]; try done.
  destruct (json_upper _) as [s|e]; cbn [mbind outcome_bind]; [|done].
  destruct (py_float float_of_str _) as [q|e]; cbn [mbind outcome_bind];
    [|done].
  rewrite resolve_label_try. cbn [mbind outcome_bind]. by intros [= <-].
Qed.

(** X27: [_classify_with_ollama] never raises.  It returns a result tagged
    "ollama" or "keywords"; a "keywords" result is exactly the one
    [_classify_with_keywords] computes from the text, and it is what is
    returned when [requests] is missing, when the POST raises, and when the
    status is not 200; an "ollama" result needs [requests], a response of
    status 200 whose JSON body is an object with a string (or nothing)
    under "response", and that string, stripped, to be read
    successfully. *)
Theorem classify_with_ollama_cases (user_query : string) :
  exists r,
    with_ollama user_query = Return r
    /\ (method r = "ollama" \/ method r = "keywords")
    /\ (method r = "keywords" ->
        _classify_with_keywords user_query = Return r)
    /\ (method r = "ollama" ->
        REQUESTS_AVAILABLE = true
        /\ exists response fields raw,
             ollama_post user_query = Return response
             /\ status_code response = 200%Z
             /\ response_json response = Return (JObj fields)
             /\ default (JStr "") (PyDict.get "response" fields) = JStr raw
             /\ parse_ollama (RegistryOps.strip raw) = Return r)
    /\ (REQUESTS_AVAILABLE = false
        \/ (exists e, ollama_post user_query = Raise e)
        \/ (exists response, ollama_post user_query = Return response
                             /\ status_code response ≠ 200%Z) ->
        method r = "keywords").
Proof.
  destruct (classify_with_keywords_returns user_query) as (rk & Hk & Hmk).
  assert (exists r,
            Return rk = Return r
            /\ (method r = "ollama" \/ method r = "keywords")
            /\ (method r = "keywords" -> Return rk = Return r)
            /\ (method r = "ollama" ->
                REQUESTS_AVAILABLE = true
                /\ exists response fields raw,
                     ollama_post user_query = Return response
                     /\ status_code response = 200%Z
                     /\ response_json response = Return (JObj fields)
                     /\ default (JStr "") (PyDict.get "response" fields)
                        = JStr raw
                     /\ parse_ollama (RegistryOps.strip raw) = Return r)
            /\ (REQUESTS_AVAILABLE = false
                \/ (exists e, ollama_post user_query = Raise e)
                \/ (exists response,
                      ollama_post user_query = Return response
                      /\ status_code response ≠ 200%Z) ->
                method r = "keywords")) as Hfallback.
  { exists rk. rewrite Hmk. repeat split; try done. by right. }
  unfold _classify_with_ollama. rewrite Hk.
  destruct REQUESTS_AVAILABLE; cbn [negb]; [|exact Hfallback].
  destruct (ollama_post user_query) as [response|e] eqn:Hpost;
    cbn [mbind outcome_bind try_except is_Exception]; [|exact Hfallback].
  destruct (status_code response =? 200)%Z eqn:Hstatus; cbn [negb try_except];
    [|exact Hfallback].
  apply Z.eqb_eq in Hstatus.
  destruct (response_json response) as [data|e] eqn:Hjson;
    cbn [mbind outcome_bind try_except is_Exception]; [|exact Hfallback].
  destruct data as [| | | |items|fields];
    cbn [json_get mbind outcome_bind try_except is_Exception];
    try exact Hfallback.
  destruct (default (JStr "") (PyDict.get "response" fields))
    as [| | |raw| |] eqn:Hraw;
    cbn [json_strip mbind outcome_bind try_except is_Exception];
    try exact Hfallback.
  destruct (parse_ollama (RegistryOps.strip raw)) as [r|e] eqn:Hparse;
    cbn [try_except].
  - exists r. rewrite (parse_ollama_method _ _ Hparse).
    repeat split; try done; [by left| |].
    + by exists response, fields, raw.
    + intros [?|[[e ?]|(resp & [= <-] & ?)]]; done.
  - destruct (is_JSONDecodeError e); cbn [is_Exception]; exact Hfallback.
Qed.

End OllamaFacts.

(** *** Instances *)


Lemma classify_binds_backend_once_witness :
  classify_all fixed_json_loads no_float_of_str
    {| client := Some answering_client; model := Some "gpt-4" |}
    [(None, "find the latest firmware");
     (Some {| shared_client := Some unreachable_client; OLLAMA_MODEL := None;
              GROQ_MODEL := None; USE_OLLAMA_FLAG := false;
              USE_GROQ_FLAG := false |}, "open an incident")]
  = (fun call =>
       _classify_with_llm fixed_json_loads no_float_of_str answering_client
         (Some "gpt-4") call.2)
      <$> [(None, "find the latest firmware");
           (Some {| shared_client := Some unreachable_client;
                    OLLAMA_MODEL := None; GROQ_MODEL := None;
                    USE_OLLAMA_FLAG := false; USE_GROQ_FLAG := false |},
            "open an incident")].
Proof.
  exact (proj1 (classify_binds_backend_once fixed_json_loads no_float_of_str
                  {| client := Some answering_client; model := Some "gpt-4" |}
                  answering_client _ eq_refl)).
Defined.

(** A local model that answers, wrapped in spaces, with a label in lower
    case; and the same call without [requests]. *)
Example classify_with_ollama_examples :
  let post := fun _ : string =>
    Return {| status_code := 200;
              response_json := Return (JObj [("response", JStr "  {...} ")]) |} in
  _classify_with_ollama fixed_json_loads no_float_of_str true post
    "find the latest firmware"
  = Return {| intent := SEARCH; confidence := 9 # 10;
              reasoning := JStr "asks for a lookup"; method := "ollama" |}
  /\ _classify_with_ollama fixed_json_loads no_float_of_str false post
       "find the latest firmware"
     = _classify_with_keywords "find the latest firmware".
Proof. by vm_compute. Qed.

End ClassifierOps.
